(** * PFGM-CompositeGraviton: the numerical scripts, embedded and verified

    The three scripts under [scripts/] compute with Python floats, which are
    IEEE 754 binary64 numbers.  They are embedded here over Rocq's primitive
    floats, which are the same numbers with the same round-to-nearest-even
    operations, so that every concrete run below is the run of the script,
    bit for bit.  General statements go through the specification of the
    primitive operations ([FloatAxioms]).

    Python exceptions are values of an error monad; loops over [range(4)]
    are folds over the four indices in order; the generator [frange] is a
    fuelled loop. *)

From Stdlib Require Import ZArith List Bool Lia Floats Permutation.
From Stdlib Require String DecimalString.
Import ListNotations.

Set Warnings "-inexact-float".

(** ** Python exceptions as an error monad *)

Inductive exn : Type :=
| ValueError
| ZeroDivisionError.

Inductive result (A : Type) : Type :=
| Ok (a : A)
| Raise (e : exn).

Arguments Ok {A} a.
Arguments Raise {A} e.

Definition bind {A B : Type} (c : result A) (f : A -> result B) : result B :=
  match c with
  | Ok a => f a
  | Raise e => Raise e
  end.

Notation "x <- c ;; k" := (bind c (fun x => k))
  (at level 61, c at next level, right associativity).

(** [for x in xs: acc = body(x, acc)], where the body may raise. *)
Fixpoint for_each {A S : Type} (body : A -> S -> result S) (xs : list A) (s : S)
  : result S :=
  match xs with
  | [] => Ok s
  | x :: xs' => s' <- body x s ;; for_each body xs' s'
  end.

(** ** The Python float operations the scripts use *)

Module Py.

(** [a / b]: CPython's [float_div] raises when the divisor compares equal
    to zero (either sign), and divides otherwise. *)
Definition truediv (a b : float) : result float :=
  if (b =? 0)%float then Raise ZeroDivisionError else Ok (a / b)%float.

(** [sum(xs)] over floats: the accumulator starts at the integer [0], which
    the first addition converts to [0.0], and the items are added left to
    right.  (CPython 3.12 and later add a correction for the rounding errors
    of the partial sums; it is zero whenever they are exact, as in every
    concrete run below, and the general results do not depend on the value
    of the sum.) *)
Definition sum (xs : list float) : float :=
  fold_left PrimFloat.add xs 0%float.

(** [sum(1 for v in xs if cond(v))]: an integer sum of ones. *)
Definition sum_int (xs : list Z) : Z :=
  fold_left Z.add xs 0%Z.

(** [int(b)] for a bool. *)
Definition int_of_bool (b : bool) : Z := if b then 1%Z else 0%Z.

(** [x > y] and [x >= y] are the mirrored comparisons. *)
Definition gt (x y : float) : bool := (y <? x)%float.
Definition ge (x y : float) : bool := (y <=? x)%float.

(** [min(xs)] and [max(xs)] on a non-empty list: the first item is kept
    until a strictly smaller (larger) one is met. *)
Definition min (x : float) (xs : list float) : float :=
  fold_left (fun m v => if (v <? m)%float then v else m) xs x.
Definition max (x : float) (xs : list float) : float :=
  fold_left (fun m v => if gt v m then v else m) xs x.

(** [float(n)] for an integer [0 <= n < 2^53], which converts exactly. *)
Definition float_of_int (n : Z) : float := of_uint63 (Uint63.of_Z n).

(** [a / b] on integers: raises on a zero divisor; when both operands are
    below [2^53] in size, CPython converts them to floats and divides.  The
    operands here are list lengths and counts, so non-negative and small. *)
Definition int_truediv (a b : Z) : result float :=
  if (b =? 0)%Z then Raise ZeroDivisionError
  else Ok (float_of_int a / float_of_int b)%float.

(** The text [f"{x:.3f}"], as the numeral it spells: a sign and a number of
    thousandths, or [inf], [-inf], [nan].  The digits are those of the exact
    value of [x] rounded to three decimals, ties to even; the sign is the
    sign bit, so a small negative value is written [-0.000]. *)
Inductive numeral3 : Type :=
| Fixed3 (negative : bool) (thousandths : N)
| Inf3 (negative : bool)
| Nan3.

(** The fraction [num / den] (both positive) rounded to an integer, ties to
    even. *)
Definition round_half_even (num den : Z) : Z :=
  let q := (num / den)%Z in
  let r := (num mod den)%Z in
  match (2 * r ?= den)%Z with
  | Lt => q
  | Gt => (q + 1)%Z
  | Eq => if Z.even q then q else (q + 1)%Z
  end.

Definition format_3f (x : float) : numeral3 :=
  match Prim2SF x with
  | S754_nan => Nan3
  | S754_infinity s => Inf3 s
  | S754_zero s => Fixed3 s 0
  | S754_finite s m e =>
      Fixed3 s (Z.to_N (if (0 <=? e)%Z then (Z.pos m * 2 ^ e * 1000)%Z
                        else round_half_even (Z.pos m * 1000) (2 ^ (- e))))
  end.

Import String.

(** The characters written for a numeral. *)
Definition digit (d : N) : String.string :=
  String.String (Ascii.ascii_of_N (48 + d)) String.EmptyString.

Definition text_of_numeral3 (c : numeral3) : String.string :=
  match c with
  | Fixed3 negative n =>
      String.append (if negative then "-"%string else String.EmptyString)
     (String.append
        (DecimalString.NilZero.string_of_uint (N.to_uint (n / 1000)))
     (String.append "."%string
     (String.append (digit ((n / 100) mod 10))
     (String.append (digit ((n / 10) mod 10)) (digit (n mod 10))))))
  | Inf3 negative => if negative then "-inf"%string else "inf"%string
  | Nan3 => "nan"%string
  end.

(** [float(s)] for the text of a numeral: the double nearest to the number
    spelled, with its sign.  For fewer than [2^53] thousandths, which covers
    every magnitude below nine billion, that double is the quotient of the
    two exactly represented integers. *)
Definition float_of_numeral3 (c : numeral3) : float :=
  match c with
  | Fixed3 negative n =>
      let v := (float_of_int (Z.of_N n) / 1000)%float in
      if negative then (- v)%float else v
  | Inf3 negative => if negative then neg_infinity else infinity
  | Nan3 => nan
  end.

End Py.

(** ** Lists of length four, indexed by [range(4)] *)

Inductive idx : Type := I0 | I1 | I2 | I3.

Definition range4 : list idx := [I0; I1; I2; I3].

Definition idx_eqb (i j : idx) : bool :=
  match i, j with
  | I0, I0 | I1, I1 | I2, I2 | I3, I3 => true
  | _, _ => false
  end.

Record list4 (A : Type) : Type := L4 { e0 : A; e1 : A; e2 : A; e3 : A }.

Arguments L4 {A} e0 e1 e2 e3.
Arguments e0 {A} l.
Arguments e1 {A} l.
Arguments e2 {A} l.
Arguments e3 {A} l.

Definition nth4 {A : Type} (l : list4 A) (i : idx) : A :=
  match i with
  | I0 => e0 l
  | I1 => e1 l
  | I2 => e2 l
  | I3 => e3 l
  end.

Notation "l [[ i ]]" := (nth4 l i) (at level 1, left associativity, format "l [[ i ]]").

(** The list whose entry [i] is [f i]: what a loop over [range(4)] that
    assigns every entry of a fresh list leaves behind. *)
Definition tabulate {A : Type} (f : idx -> A) : list4 A :=
  L4 (f I0) (f I1) (f I2) (f I3).

(** The same when computing an entry may raise: entries are computed in index
    order and the first exception escapes. *)
Definition tabulateM {A : Type} (f : idx -> result A) : result (list4 A) :=
  a <- f I0 ;; b <- f I1 ;; c <- f I2 ;; d <- f I3 ;; Ok (L4 a b c d).

Definition vec4 : Type := list4 float.
Definition tensor2 : Type := list4 (list4 float).
Definition tensor4 : Type := list4 (list4 (list4 (list4 float))).

(** ** scripts/check_spin2_structure.py *)

Module check_spin2_structure.

Local Open Scope float_scope.

(** Minkowski metric with signature (-,+,+,+). *)
Definition eta : tensor2 :=
  L4 (L4 (-1.0) 0.0 0.0 0.0)
     (L4 0.0 1.0 0.0 0.0)
     (L4 0.0 0.0 1.0 0.0)
     (L4 0.0 0.0 0.0 1.0).

(** [-k[0] * k[0] + sum(k[i] * k[i] for i in range(1, 4))]: the unary minus
    applies to [k[0]] before the product. *)
Definition minkowski_k2 (k : vec4) : float :=
  (- k[[I0]]) * k[[I0]] + Py.sum (map (fun i => k[[i]] * k[[i]]) [I1; I2; I3]).

Definition theta_tensor (k : vec4) : result tensor2 :=
  let k2 := minkowski_k2 k in
  if abs k2 <? 1e-10 then Raise ValueError
  else
    tabulateM (fun mu =>
      tabulateM (fun nu =>
        let eta_mu_nu := if idx_eqb mu nu then eta[[mu]][[nu]] else 0.0 in
        quot <- Py.truediv (k[[mu]] * k[[nu]]) k2 ;;
        Ok (eta_mu_nu - quot))).

(** The two local values of the innermost loop body of [P2_tensor], as
    functions of the indices.  [1.0 / 3.0] divides by a non-zero literal and
    cannot raise; the products of [term2] associate to the left. *)
Definition term1 (theta : tensor2) (mu nu rho sigma : idx) : float :=
  0.5 * (theta[[mu]][[rho]] * theta[[nu]][[sigma]] +
         theta[[mu]][[sigma]] * theta[[nu]][[rho]]).

Definition term2 (theta : tensor2) (mu nu rho sigma : idx) : float :=
  (1.0 / 3.0) * theta[[mu]][[nu]] * theta[[rho]][[sigma]].

Definition P2_entry (theta : tensor2) (mu nu rho sigma : idx) : float :=
  term1 theta mu nu rho sigma - term2 theta mu nu rho sigma.

Definition P2_tensor (k : vec4) : result tensor4 :=
  theta <- theta_tensor k ;;
  Ok (tabulate (fun mu => tabulate (fun nu =>
      tabulate (fun rho => tabulate (fun sigma =>
        P2_entry theta mu nu rho sigma))))).

Definition N_tensor (q k : vec4) : tensor4 :=
  tabulate (fun mu => tabulate (fun nu =>
  tabulate (fun rho => tabulate (fun sigma =>
    let A := q[[mu]] * k[[nu]] + q[[nu]] * k[[mu]] in
    let B := q[[rho]] * k[[sigma]] + q[[sigma]] * k[[rho]] in
    A * B)))).

(** [val = 0.0], then [val += P2[mu][nu][rho][sigma] * N[mu][nu][rho][sigma]]
    in the order of the four nested loops. *)
Definition contract_P2_N (P2 N : tensor4) : float :=
  fold_left (fun val mu =>
    fold_left (fun val nu =>
      fold_left (fun val rho =>
        fold_left (fun val sigma =>
          val + P2[[mu]][[nu]][[rho]][[sigma]] * N[[mu]][[nu]][[rho]][[sigma]])
          range4 val)
        range4 val)
      range4 val)
    range4 0.0.

Definition q0 : float := 1.0.
Definition q : vec4 := L4 q0 0.0 0.0 0.0.

(** One appended dictionary of [rows]. *)
Record row : Type := Row {
  omega : float; kx : float; ky : float; kz : float; k2 : float; F2 : float
}.

Definition row_k (r : row) : vec4 := L4 (omega r) (kx r) (ky r) (kz r).

(** The body of the innermost loop for one swept vector [k]: [continue]
    leaves [rows] as it is; only [ValueError] is caught. *)
Definition loop_body (q : vec4) (k : vec4) (rows : list row)
  : result (list row) :=
  let k2 := minkowski_k2 k in
  if abs k2 <? 1e-8 then Ok rows
  else
    match P2_tensor k with
    | Raise ValueError => Ok rows
    | Raise e => Raise e
    | Ok P2 =>
        let N := N_tensor q k in
        let F2_val := contract_P2_N P2 N in
        Ok (rows ++ [Row k[[I0]] k[[I1]] k[[I2]] k[[I3]] k2 F2_val])
    end.

(** The vectors the four nested [for] loops visit, in order. *)
Definition sweep (omegas kxs kys kzs : list float) : list vec4 :=
  flat_map (fun omega => flat_map (fun kx => flat_map (fun ky =>
    map (fun kz => L4 omega kx ky kz) kzs) kys) kxs) omegas.

Definition sampler (q : vec4) (ks : list vec4) : result (list row) :=
  for_each (loop_body q) ks [].

Definition swept : list vec4 :=
  sweep [0.5; 1.0; 1.5; 2.0] [0.5; 1.0; 1.5] [0.0] [0.0].

(** The script's [rows] when the loops are done. *)
Definition rows : result (list row) := sampler q swept.

(** The quick human check printed at the end. *)
Definition num_pos (rs : list row) : Z :=
  Py.sum_int (map (fun _ => 1%Z) (filter (fun r => Py.gt (F2 r) 0.0) rs)).
Definition num_neg (rs : list row) : Z :=
  Py.sum_int (map (fun _ => 1%Z) (filter (fun r => F2 r <? 0.0) rs)).

(** What the loops of [theta_tensor] and [P2_tensor] leave in each entry,
    and the record appended for a retained vector; the functions above are
    shown below to compute exactly these. *)
Definition theta_entry (k : vec4) (mu nu : idx) : float :=
  (if idx_eqb mu nu then eta[[mu]][[nu]] else 0.0)
  - k[[mu]] * k[[nu]] / minkowski_k2 k.

Definition theta_of (k : vec4) : tensor2 :=
  tabulate (fun mu => tabulate (fun nu => theta_entry k mu nu)).

Definition P2_of (k : vec4) : tensor4 :=
  tabulate (fun mu => tabulate (fun nu =>
  tabulate (fun rho => tabulate (fun sigma =>
    P2_entry (theta_of k) mu nu rho sigma)))).

Definition sample_row (q k : vec4) : row :=
  Row k[[I0]] k[[I1]] k[[I2]] k[[I3]] (minkowski_k2 k)
      (contract_P2_N (P2_of k) (N_tensor q k)).

(** The outer loop's test [abs(k2) < 1e-8]. *)
Definition skipped (k : vec4) : bool := abs (minkowski_k2 k) <? 1e-8.

(** The vector [-k], component by component. *)
Definition neg4 (k : vec4) : vec4 := tabulate (fun i => - k[[i]]).

End check_spin2_structure.

(** ** scripts/scan_healthy_band.py *)

Module scan_healthy_band.

Local Open Scope float_scope.

(** Background X0. *)
Definition X0 : float := 1.0.

Definition PPRIME_MIN : float := -2.0.
Definition PPRIME_MAX : float := 2.0.
Definition PPRIME_STEP : float := 0.1.
Definition P2PRIME_MIN : float := -2.0.
Definition P2PRIME_MAX : float := 2.0.
Definition P2PRIME_STEP : float := 0.1.

(** The generator [frange], run to exhaustion: [while x <= stop + 1e-9:
    yield x; x += step].  The loop has no structural bound (a zero step
    never ends it), so it is run on fuel: [None] when the fuel is spent
    before the loop condition fails. *)
Fixpoint frange (fuel : nat) (x stop step : float) : option (list float) :=
  match fuel with
  | O => None
  | S fuel' =>
      if x <=? stop + 1e-9
      then option_map (cons x) (frange fuel' (x + step) stop step)
      else Some []
  end.

(** One written row; the fields are the values handed to the formatter
    ([.3f] for the floats, the empty string for a [cs2] of [None]). *)
Record grid_row : Type := GridRow {
  Pprime : float; P2prime : float; Zs : float; Zt : float;
  cs2 : option float; ghost_ok : Z; grad_ok : Z
}.

Definition Zt_of (Pprime P2prime : float) : float :=
  Pprime + 2.0 * X0 * P2prime.

(** The body of the inner loop. *)
Definition loop_body (Pprime P2prime : float) : result grid_row :=
  let Zs := Pprime in
  let Zt := Zt_of Pprime P2prime in
  let ghost_ok := Py.gt Zt 0.0 in
  let grad_ok := Py.gt Zs 0.0 in
  cs2 <- (if ghost_ok then c <- Py.truediv Zs Zt ;; Ok (Some c) else Ok None) ;;
  Ok (GridRow Pprime P2prime Zs Zt cs2
        (Py.int_of_bool ghost_ok) (Py.int_of_bool grad_ok)).

(** The rows written under the header, in order.  The inner generator is
    created afresh for every outer value.  The outer [option] is the fuel,
    the inner [result] an exception escaping the script. *)
Fixpoint inner_loop (Pprime : float) (p2s : list float) (out : list grid_row)
  : result (list grid_row) :=
  match p2s with
  | [] => Ok out
  | P2prime :: p2s' =>
      r <- loop_body Pprime P2prime ;; inner_loop Pprime p2s' (out ++ [r])
  end.

Fixpoint outer_loop (fuel : nat) (ps : list float) (out : list grid_row)
  : option (result (list grid_row)) :=
  match ps with
  | [] => Some (Ok out)
  | Pprime :: ps' =>
      match frange fuel P2PRIME_MIN P2PRIME_MAX P2PRIME_STEP with
      | None => None
      | Some p2s =>
          match inner_loop Pprime p2s out with
          | Raise e => Some (Raise e)
          | Ok out' => outer_loop fuel ps' out'
          end
      end
  end.

Definition scan (fuel : nat) : option (result (list grid_row)) :=
  match frange fuel PPRIME_MIN PPRIME_MAX PPRIME_STEP with
  | None => None
  | Some ps => outer_loop fuel ps []
  end.

(** The row the loop body writes for a grid pair; the body is shown below to
    return exactly this, never raising. *)
Definition grid_row_of (Pprime P2prime : float) : grid_row :=
  let Zt := Zt_of Pprime P2prime in
  GridRow Pprime P2prime Pprime Zt
    (if Py.gt Zt 0.0 then Some (Pprime / Zt) else None)
    (Py.int_of_bool (Py.gt Zt 0.0)) (Py.int_of_bool (Py.gt Pprime 0.0)).

(** One row per pair of the Cartesian product, outer value first. *)
Definition grid (ps p2s : list float) : list grid_row :=
  flat_map (fun Pprime => map (grid_row_of Pprime) p2s) ps.

(** The two grid axes, as the generator yields them when given fuel enough. *)
Definition Pprime_axis : list float :=
  match frange 42 PPRIME_MIN PPRIME_MAX PPRIME_STEP with
  | Some ps => ps
  | None => []
  end.

Definition P2prime_axis : list float :=
  match frange 42 P2PRIME_MIN P2PRIME_MAX P2PRIME_STEP with
  | Some p2s => p2s
  | None => []
  end.

(** The row as it stands in the file: [writer.writerow] receives the four
    floats rendered with [.3f], [cs2] rendered likewise or the empty cell,
    and the two flags as integers. *)
Record csv_row : Type := CsvRow {
  cell_Pprime : Py.numeral3; cell_P2prime : Py.numeral3;
  cell_Zs : Py.numeral3; cell_Zt : Py.numeral3;
  cell_cs2 : option Py.numeral3; cell_ghost_ok : Z; cell_grad_ok : Z
}.

Definition write_row (r : grid_row) : csv_row :=
  CsvRow (Py.format_3f (Pprime r)) (Py.format_3f (P2prime r))
         (Py.format_3f (Zs r)) (Py.format_3f (Zt r))
         (option_map Py.format_3f (cs2 r)) (ghost_ok r) (grad_ok r).

End scan_healthy_band.

(** ** scripts/make_all_figures_and_tables.py *)

Module make_all_figures_and_tables.

Local Open Scope float_scope.

(** [make_fig_healthy_band]: the plotted coordinates.  [X0] is the
    function's own local constant. *)
Definition X0 : float := 1.0.

Definition y_of (p p2 : float) : float := p + 2.0 * X0 * p2.

Definition y_vals (Pprime P2prime : list float) : list float :=
  map (fun '(p, p2) => y_of p p2) (combine Pprime P2prime).

Definition stable_mask (ghost_ok grad_ok : list Z) : list bool :=
  map (fun '(g, r) => (g =? 1)%Z && (r =? 1)%Z) (combine ghost_ok grad_ok).

(** [make_table_spin2_F2_stats]: the numbers interpolated into the table. *)
Record F2_stats : Type := F2Stats {
  total : Z; n_pos : Z; n_neg : Z; n_zero : Z; F2_min : float; F2_max : float
}.

Definition count_if (cond : float -> bool) (F2 : list float) : Z :=
  Py.sum_int (map (fun _ => 1%Z) (filter cond F2)).

Definition make_table_spin2_F2_stats (F2 : list float) : F2_stats :=
  let total := Z.of_nat (length F2) in
  let n_pos := count_if (fun v => Py.gt v 0.0) F2 in
  let n_neg := count_if (fun v => v <? 0.0) F2 in
  let n_zero := count_if (fun v => abs v <? 1e-12) F2 in
  match F2 with
  | v :: vs => F2Stats total n_pos n_neg n_zero (Py.min v vs) (Py.max v vs)
  | [] => F2Stats total n_pos n_neg n_zero nan nan
  end.

(** The values that enter two of the three counts: non-zero, yet below the
    [1e-12] band in absolute value. *)
Definition counted_twice (v : float) : bool :=
  (abs v <? 1e-12) && negb (v =? 0.0).

(** [[x for x, s in zip(vals, mask) if s]]. *)
Definition select {A : Type} (vals : list A) (mask : list bool) : list A :=
  map fst (filter snd (combine vals mask)).

Definition unstable_mask (stable : list bool) : list bool := map negb stable.

(** [make_fig_healthy_band]: the four coordinate lists handed to the two
    [scatter] calls (each call is made only when its [x] list is not
    empty). *)
Record fig_points : Type := FigPoints {
  x_stable : list float; y_stable : list float;
  x_unst : list float; y_unst : list float
}.

Definition make_fig_healthy_band
    (Pprime P2prime : list float) (ghost_ok grad_ok : list Z) : fig_points :=
  let x_vals := Pprime in
  let y_vals := y_vals Pprime P2prime in
  let stable_mask := stable_mask ghost_ok grad_ok in
  let unstable_mask := unstable_mask stable_mask in
  FigPoints (select x_vals stable_mask) (select y_vals stable_mask)
            (select x_vals unstable_mask) (select y_vals unstable_mask).

(** [make_table_healthy_band_stats]: the numbers interpolated into the
    table.  The fields carry a prefix, [total] being taken above. *)
Record band_stats : Type := BandStats {
  hb_total : Z; hb_n_stable : Z; hb_frac_stable : float
}.

Definition make_table_healthy_band_stats
    (Pprime : list float) (ghost_ok grad_ok : list Z) : result band_stats :=
  let total := Z.of_nat (length Pprime) in
  let stable_mask := stable_mask ghost_ok grad_ok in
  let n_stable :=
    Py.sum_int (map (fun _ => 1%Z) (filter (fun s => s) stable_mask)) in
  frac_stable <- (if (total >? 0)%Z then Py.int_truediv n_stable total
                  else Ok nan) ;;
  Ok (BandStats total n_stable frac_stable).

(** [load_healthy_band] on the rows of the scanner's file: the four float
    columns are read with [float(...)], the two flag columns with
    [int(...)], which returns the integer written. *)
Record band_columns : Type := BandColumns {
  col_Pprime : list float; col_P2prime : list float;
  col_Zs : list float; col_Zt : list float;
  col_ghost_ok : list Z; col_grad_ok : list Z
}.

Definition load_healthy_band (file : list scan_healthy_band.csv_row)
  : band_columns :=
  BandColumns
    (map (fun r => Py.float_of_numeral3 (scan_healthy_band.cell_Pprime r)) file)
    (map (fun r => Py.float_of_numeral3 (scan_healthy_band.cell_P2prime r)) file)
    (map (fun r => Py.float_of_numeral3 (scan_healthy_band.cell_Zs r)) file)
    (map (fun r => Py.float_of_numeral3 (scan_healthy_band.cell_Zt r)) file)
    (map scan_healthy_band.cell_ghost_ok file)
    (map scan_healthy_band.cell_grad_ok file).

(** The [y_vals] of [make_fig_healthy_band] as [main] calls it, on the
    columns loaded from the file the scanner wrote for [rws]. *)
Definition y_vals_of_file (rws : list scan_healthy_band.grid_row) : list float :=
  y_vals
    (col_Pprime (load_healthy_band (map scan_healthy_band.write_row rws)))
    (col_P2prime (load_healthy_band (map scan_healthy_band.write_row rws))).

End make_all_figures_and_tables.

(** The order on the pairs (exponent, mantissa) that [SFcompare] uses for
    two finite floats of the same sign. *)
Definition lex (e1 : Z) (m1 : positive) (e2 : Z) (m2 : positive) : comparison :=
  match (e1 ?= e2)%Z with
  | Eq => Pos.compare_cont Eq m1 m2
  | Lt => Lt
  | Gt => Gt
  end.

(** * Facts about binary64 arithmetic

    Each is transported from the specification level ([spec_float]) through
    the specification of the primitive operation. *)

Section FloatFacts.

Local Open Scope float_scope.

Lemma SFmul_comm (x y : spec_float) : SF64mul x y = SF64mul y x.
Proof.
  unfold SF64mul, SFmul.
  destruct x as [sx | sx | | sx mx ex], y as [sy | sy | | sy my ey];
    first [ now rewrite (xorb_comm sx sy), (Pos.mul_comm mx my), (Z.add_comm ex ey)
          | now rewrite (xorb_comm sx sy)
          | reflexivity ].
Qed.

Lemma SFadd_comm (x y : spec_float) : SF64add x y = SF64add y x.
Proof.
  unfold SF64add, SFadd.
  destruct x as [ [] | [] | | sx mx ex], y as [ [] | [] | | sy my ey];
    first [ now rewrite (Z.min_comm ex ey), Z.add_comm | reflexivity ].
Qed.

Lemma mul_comm (x y : float) : x * y = y * x.
Proof. apply Prim2SF_inj. rewrite !mul_spec. apply SFmul_comm. Qed.

Lemma add_comm (x y : float) : x + y = y + x.
Proof. apply Prim2SF_inj. rewrite !add_spec. apply SFadd_comm. Qed.

(** Comparison is antisymmetric, NaN being unordered both ways. *)
Lemma SFcompare_antisym (x y : spec_float) :
  SFcompare y x = option_map CompOpp (SFcompare x y).
Proof.
  destruct x as [ [] | [] | | [] mx ex], y as [ [] | [] | | [] my ey];
    try reflexivity; simpl;
    rewrite (Z.compare_antisym ex ey);
    destruct (ex ?= ey)%Z; simpl; try reflexivity;
    change PosDef.Pos.compare_cont with Pos.compare_cont;
    rewrite (Pos.compare_cont_antisym mx my Eq); reflexivity.
Qed.

Lemma leb_true_ltb_false (x y : float) :
  (x <=? y) = true -> (y <? x) = false.
Proof.
  rewrite leb_spec, ltb_spec. unfold SFleb, SFltb.
  rewrite (SFcompare_antisym (Prim2SF x) (Prim2SF y)).
  now destruct (SFcompare (Prim2SF x) (Prim2SF y)) as [ [] |].
Qed.

(** A float that compares equal to zero has an absolute value below any
    positive finite bound. *)
Lemma eqb_zero_abs_ltb (x c : float) :
  (0 <? c) = true -> (x =? 0) = true -> (abs x <? c) = true.
Proof.
  rewrite eqb_spec, !ltb_spec, abs_spec.
  unfold SFeqb, SFltb.
  replace (Prim2SF 0) with (S754_zero false) by reflexivity.
  destruct (Prim2SF x) as [ [] | [] | | [] mx ex]; simpl; try discriminate;
    now destruct (Prim2SF c) as [ [] | [] | | [] mc ec].
Qed.

Lemma ltb_zero_neq (x : float) : (0 <? x) = true -> (x =? 0) = false.
Proof.
  rewrite !eqb_spec, !ltb_spec. unfold SFeqb, SFltb.
  replace (Prim2SF 0) with (S754_zero false) by reflexivity.
  destruct (Prim2SF x) as [ [] | [] | | [] mx ex]; simpl; auto; discriminate.
Qed.

(** The inner tolerance is the stricter one: what is below [1e-10] in
    absolute value is below [1e-8]. *)
Lemma abs_ltb_1e10_1e8 (x : float) :
  (abs x <? 1e-10) = true -> (abs x <? 1e-8) = true.
Proof.
  rewrite !ltb_spec, abs_spec. unfold SFltb.
  replace (Prim2SF 1e-10) with (S754_finite false 7737125245533627 (-86))
    by (vm_compute; reflexivity).
  replace (Prim2SF 1e-8) with (S754_finite false 6044629098073146 (-79))
    by (vm_compute; reflexivity).
  destruct (Prim2SF x) as [sx | sx | | sx mx ex]; cbn [SFabs SFcompare];
    [ reflexivity | discriminate | discriminate | ].
  destruct (Z.compare_spec ex (-86)) as [E | L | G]; [ | | discriminate ];
    intros _.
  - subst ex. change (-86 ?= -79)%Z with Lt. reflexivity.
  - replace (ex ?= -79)%Z with Lt; [reflexivity |].
    symmetry. apply Z.compare_lt_iff. lia.
Qed.

End FloatFacts.

(** * The tensor contraction sampler *)

Section Containers.

Context {A : Type}.

Lemma nth4_tabulate (f : idx -> A) (i : idx) : (tabulate f)[[i]] = f i.
Proof. now destruct i. Qed.

Lemma tabulateM_ok (f : idx -> result A) (g : idx -> A) :
  (forall i, f i = Ok (g i)) -> tabulateM f = Ok (tabulate g).
Proof. intros H. unfold tabulateM. now rewrite !H. Qed.

Lemma list4_eta (l : list4 A) : L4 l[[I0]] l[[I1]] l[[I2]] l[[I3]] = l.
Proof. now destruct l. Qed.

End Containers.

Section Sampler.

Import check_spin2_structure.
Local Open Scope float_scope.

Lemma truediv_ok (a b : float) :
  (b =? 0) = false -> Py.truediv a b = Ok (a / b).
Proof. intros H. unfold Py.truediv. now rewrite H. Qed.

(** Past the guard of [theta_tensor] the divisor is not zero. *)
Lemma guard_nonzero (x : float) : (abs x <? 1e-10) = false -> (x =? 0) = false.
Proof.
  intros H. destruct (x =? 0) eqn:E; [ | reflexivity ].
  rewrite (eqb_zero_abs_ltb x 1e-10) in H; [ discriminate | reflexivity | exact E ].
Qed.

Lemma theta_tensor_raises (k : vec4) :
  (abs (minkowski_k2 k) <? 1e-10) = true -> theta_tensor k = Raise ValueError.
Proof. intros H. unfold theta_tensor. now rewrite H. Qed.

Lemma theta_tensor_ok (k : vec4) :
  (abs (minkowski_k2 k) <? 1e-10) = false -> theta_tensor k = Ok (theta_of k).
Proof.
  intros H. unfold theta_tensor. rewrite H.
  apply tabulateM_ok. intros mu. apply tabulateM_ok. intros nu.
  rewrite (truediv_ok _ _ (guard_nonzero _ H)). reflexivity.
Qed.

Lemma P2_tensor_ok (k : vec4) :
  (abs (minkowski_k2 k) <? 1e-10) = false -> P2_tensor k = Ok (P2_of k).
Proof. intros H. unfold P2_tensor. now rewrite (theta_tensor_ok k H). Qed.

(** A vector the outer filter lets through also passes the inner guard. *)
Lemma retained_passes_guard (k : vec4) :
  skipped k = false -> (abs (minkowski_k2 k) <? 1e-10) = false.
Proof.
  unfold skipped. intros H.
  destruct (abs (minkowski_k2 k) <? 1e-10) eqn:E; [ | reflexivity ].
  apply abs_ltb_1e10_1e8 in E. congruence.
Qed.

Lemma ge_not_skipped (k : vec4) :
  Py.ge (abs (minkowski_k2 k)) 1e-8 = true -> skipped k = false.
Proof. apply leb_true_ltb_false. Qed.

Lemma loop_body_skipped (q k : vec4) (rows : list row) :
  skipped k = true -> loop_body q k rows = Ok rows.
Proof. unfold skipped, loop_body. intros H. now rewrite H. Qed.

Lemma loop_body_retained (q k : vec4) (rows : list row) :
  skipped k = false -> loop_body q k rows = Ok (rows ++ [sample_row q k]).
Proof.
  intros H. unfold loop_body. fold (skipped k). rewrite H.
  now rewrite (P2_tensor_ok k (retained_passes_guard k H)).
Qed.

Lemma row_k_sample_row (q k : vec4) : row_k (sample_row q k) = k.
Proof. unfold row_k, sample_row. cbn [omega kx ky kz]. apply list4_eta. Qed.

Lemma for_each_loop_body (q : vec4) (ks : list vec4) (acc : list row) :
  for_each (loop_body q) ks acc
  = Ok (acc ++ map (sample_row q) (filter (fun k => negb (skipped k)) ks)).
Proof.
  revert acc. induction ks as [ | k ks IH]; intros acc; cbn [for_each filter map].
  - now rewrite app_nil_r.
  - destruct (skipped k) eqn:E; cbn [negb].
    + rewrite (loop_body_skipped q k acc E). cbn [bind]. apply IH.
    + rewrite (loop_body_retained q k acc E). cbn [bind]. rewrite IH.
      cbn [map]. now rewrite <- app_assoc.
Qed.

(** [theta] is symmetric: the metric term is, and the product [k[mu] * k[nu]]
    commutes. *)
Lemma theta_entry_sym (k : vec4) (mu nu : idx) :
  theta_entry k mu nu = theta_entry k nu mu.
Proof.
  unfold theta_entry. rewrite (mul_comm k[[mu]] k[[nu]]).
  now destruct mu, nu.
Qed.

Lemma theta_of_sym (k : vec4) (mu nu : idx) :
  (theta_of k)[[mu]][[nu]] = (theta_of k)[[nu]][[mu]].
Proof. unfold theta_of. rewrite !nth4_tabulate. apply theta_entry_sym. Qed.

Lemma P2_of_entry (k : vec4) (mu nu rho sigma : idx) :
  (P2_of k)[[mu]][[nu]][[rho]][[sigma]] = P2_entry (theta_of k) mu nu rho sigma.
Proof. unfold P2_of. now rewrite !nth4_tabulate. Qed.

Lemma P2_entry_swap_first (k : vec4) (mu nu rho sigma : idx) :
  P2_entry (theta_of k) mu nu rho sigma = P2_entry (theta_of k) nu mu rho sigma.
Proof.
  unfold P2_entry, term1, term2.
  rewrite (add_comm ((theta_of k)[[mu]][[rho]] * (theta_of k)[[nu]][[sigma]])).
  rewrite (mul_comm (theta_of k)[[mu]][[sigma]]).
  rewrite (mul_comm (theta_of k)[[mu]][[rho]]).
  now rewrite (theta_of_sym k mu nu).
Qed.

Lemma P2_entry_swap_second (k : vec4) (mu nu rho sigma : idx) :
  P2_entry (theta_of k) mu nu rho sigma = P2_entry (theta_of k) mu nu sigma rho.
Proof.
  unfold P2_entry, term1, term2.
  rewrite (add_comm ((theta_of k)[[mu]][[rho]] * (theta_of k)[[nu]][[sigma]])).
  now rewrite (theta_of_sym k rho sigma).
Qed.

(** The symmetric part of a projector entry is unchanged when the index
    pairs are exchanged. *)
Lemma term1_exchange (k : vec4) (mu nu rho sigma : idx) :
  term1 (theta_of k) rho sigma mu nu = term1 (theta_of k) mu nu rho sigma.
Proof.
  unfold term1.
  rewrite (theta_of_sym k rho mu), (theta_of_sym k sigma nu).
  rewrite (theta_of_sym k rho nu), (theta_of_sym k sigma mu).
  now rewrite (mul_comm (theta_of k)[[nu]][[rho]]).
Qed.

(** C1. For every swept vector: when [|norm2| >= 1e-8] the loop body appends
    exactly one record (that of the vector), when [|norm2| < 1e-8] it appends
    none and goes on; and over any list of swept vectors the sampler runs to
    the end without an exception, its rows being, in order, one per vector
    that was not skipped. *)
Theorem C1_one_record_per_retained_vector (q : vec4) (ks : list vec4) :
  (forall k rows, Py.ge (abs (minkowski_k2 k)) 1e-8 = true ->
     loop_body q k rows = Ok (rows ++ [sample_row q k])
     /\ row_k (sample_row q k) = k /\ k2 (sample_row q k) = minkowski_k2 k)
  /\ (forall k rows, (abs (minkowski_k2 k) <? 1e-8) = true ->
        loop_body q k rows = Ok rows)
  /\ exists rows,
       sampler q ks = Ok rows
       /\ map row_k rows = filter (fun k => negb (abs (minkowski_k2 k) <? 1e-8)) ks
       /\ length rows
          = length (filter (fun k => negb (abs (minkowski_k2 k) <? 1e-8)) ks).
Proof.
  split; [ | split ].
  - intros k rows H. split; [ | split ].
    + apply loop_body_retained, ge_not_skipped, H.
    + apply row_k_sample_row.
    + reflexivity.
  - intros k rows H. now apply loop_body_skipped.
  - exists (map (sample_row q) (filter (fun k => negb (skipped k)) ks)).
    split; [ | split ].
    + unfold sampler. now rewrite for_each_loop_body.
    + rewrite map_map. rewrite (map_ext _ (fun k => k) (row_k_sample_row q)).
      now rewrite map_id.
    + now rewrite length_map.
Qed.

Lemma C1_one_record_per_retained_vector_witness :
  loop_body q (L4 2.0 1.0 0.0 0.0) []
  = Ok ([] ++ [sample_row q (L4 2.0 1.0 0.0 0.0)])
  /\ loop_body q (L4 1.0 1.0 0.0 0.0) [] = Ok [].
Proof.
  destruct (C1_one_record_per_retained_vector q swept) as [Hkeep [Hskip _] ].
  split.
  - apply (Hkeep (L4 2.0 1.0 0.0 0.0) []). reflexivity.
  - apply (Hskip (L4 1.0 1.0 0.0 0.0) []). reflexivity.
Defined.

(** C2. For every four-vector with [|k^2| >= 1e-10], [P2_tensor] returns a
    projector, and each of its 256 entries is unchanged when the first two
    indices are swapped and when the last two indices are swapped: the two
    entries are the same float, and Python's [==] says so wherever the entry
    is not a NaN. *)
Theorem C2_projector_symmetric_within_pairs (k : vec4) :
  Py.ge (abs (minkowski_k2 k)) 1e-10 = true ->
  exists P, P2_tensor k = Ok P
    /\ forall mu nu rho sigma,
         P[[mu]][[nu]][[rho]][[sigma]] = P[[nu]][[mu]][[rho]][[sigma]]
         /\ P[[mu]][[nu]][[rho]][[sigma]] = P[[mu]][[nu]][[sigma]][[rho]]
         /\ (is_nan P[[mu]][[nu]][[rho]][[sigma]] = false ->
             (P[[mu]][[nu]][[rho]][[sigma]] =? P[[nu]][[mu]][[rho]][[sigma]])
             = true
             /\ (P[[mu]][[nu]][[rho]][[sigma]] =? P[[mu]][[nu]][[sigma]][[rho]])
                = true).
Proof.
  intros H. apply leb_true_ltb_false in H.
  exists (P2_of k). split; [ now apply P2_tensor_ok | ].
  intros mu nu rho sigma. rewrite !P2_of_entry.
  rewrite <- (P2_entry_swap_first k mu nu rho sigma).
  rewrite <- (P2_entry_swap_second k mu nu rho sigma).
  split; [ reflexivity | ]. split; [ reflexivity | ].
  unfold is_nan. intros Hnan. apply negb_false_iff in Hnan. now split.
Qed.

Lemma C2_projector_symmetric_within_pairs_witness :
  exists P, P2_tensor (L4 2.0 1.0 0.0 0.0) = Ok P
    /\ forall mu nu rho sigma,
         P[[mu]][[nu]][[rho]][[sigma]] = P[[nu]][[mu]][[rho]][[sigma]]
         /\ P[[mu]][[nu]][[rho]][[sigma]] = P[[mu]][[nu]][[sigma]][[rho]]
         /\ (is_nan P[[mu]][[nu]][[rho]][[sigma]] = false ->
             (P[[mu]][[nu]][[rho]][[sigma]] =? P[[nu]][[mu]][[rho]][[sigma]])
             = true
             /\ (P[[mu]][[nu]][[rho]][[sigma]] =? P[[mu]][[nu]][[sigma]][[rho]])
                = true).
Proof.
  apply (C2_projector_symmetric_within_pairs (L4 2.0 1.0 0.0 0.0)).
  reflexivity.
Defined.

(** C6. [theta_tensor] raises [ValueError] exactly when [|k^2| < 1e-10] and
    returns the tensor otherwise (the division never raises); the inner
    tolerance is below the outer one, so for every vector the outer filter
    lets through [P2_tensor] returns and the loop body takes the appending
    branch, not the [except] one. *)
Theorem C6_inner_guard_unreachable_for_retained (k : vec4) :
  (theta_tensor k = Raise ValueError
   <-> (abs (minkowski_k2 k) <? 1e-10) = true)
  /\ ((abs (minkowski_k2 k) <? 1e-10) = false -> theta_tensor k = Ok (theta_of k))
  /\ (1e-10 <? 1e-8) = true
  /\ ((abs (minkowski_k2 k) <? 1e-8) = false ->
        P2_tensor k = Ok (P2_of k)
        /\ forall q rows, loop_body q k rows = Ok (rows ++ [sample_row q k])).
Proof.
  split; [ | split; [ | split ] ].
  - split.
    + intros H. destruct (abs (minkowski_k2 k) <? 1e-10) eqn:E; [ reflexivity | ].
      rewrite (theta_tensor_ok k E) in H. discriminate.
    + apply theta_tensor_raises.
  - apply theta_tensor_ok.
  - reflexivity.
  - intros H. split.
    + apply P2_tensor_ok, retained_passes_guard, H.
    + intros q rows. now apply loop_body_retained.
Qed.

Lemma C6_inner_guard_unreachable_for_retained_witness :
  P2_tensor (L4 2.0 1.0 0.0 0.0) = Ok (P2_of (L4 2.0 1.0 0.0 0.0))
  /\ theta_tensor (L4 1.0 1.0 0.0 0.0) = Raise ValueError.
Proof.
  split.
  - apply (C6_inner_guard_unreachable_for_retained (L4 2.0 1.0 0.0 0.0)).
    reflexivity.
  - apply (C6_inner_guard_unreachable_for_retained (L4 1.0 1.0 0.0 0.0)).
    reflexivity.
Defined.

(** C7. With the reference vector [q = (1,0,0,0)]: the swept vector
    [(1.0, 1.0, 0.0, 0.0)] has [norm2] exactly [0] and the loop body appends
    nothing; the swept vector [(2.0, 1.0, 0.0, 0.0)] has [norm2 = -3], is not
    skipped, and the record appended carries the contraction
    [4.740740740740739], a finite float. *)
Theorem C7_null_vector_skipped_timelike_kept :
  q = L4 1.0 0.0 0.0 0.0
  /\ minkowski_k2 (L4 1.0 1.0 0.0 0.0) = 0.0
  /\ (forall rows, loop_body q (L4 1.0 1.0 0.0 0.0) rows = Ok rows)
  /\ minkowski_k2 (L4 2.0 1.0 0.0 0.0) = -3.0
  /\ skipped (L4 2.0 1.0 0.0 0.0) = false
  /\ (forall rows,
        loop_body q (L4 2.0 1.0 0.0 0.0) rows
        = Ok (rows ++ [Row 2.0 1.0 0.0 0.0 (-3.0) 0x1.2f684bda12f66p+2]))
  /\ (exists P, P2_tensor (L4 2.0 1.0 0.0 0.0) = Ok P
        /\ contract_P2_N P (N_tensor q (L4 2.0 1.0 0.0 0.0))
           = 0x1.2f684bda12f66p+2)
  /\ is_finite 0x1.2f684bda12f66p+2 = true.
Proof.
  split; [ reflexivity | ].
  split; [ reflexivity | ].
  split; [ intros rows; apply loop_body_skipped; reflexivity | ].
  split; [ reflexivity | ].
  split; [ reflexivity | ].
  split; [ | split; [ | reflexivity ] ].
  - intros rows.
    rewrite (loop_body_retained q (L4 2.0 1.0 0.0 0.0) rows); [ | reflexivity ].
    vm_compute. reflexivity.
  - exists (P2_of (L4 2.0 1.0 0.0 0.0)). split.
    + apply P2_tensor_ok. reflexivity.
    + vm_compute. reflexivity.
Qed.

(** C9, as the code has it. [theta] is symmetric.  The projector entries
    [P[mu][nu][rho][sigma]] and [P[rho][sigma][mu][nu]] share their [term1];
    their [term2] are the same three factors multiplied in another order,
    [((1/3) * theta[mu][nu]) * theta[rho][sigma]] against
    [((1/3) * theta[rho][sigma]) * theta[mu][nu]], which binary64 may round
    differently; the entries are equal whenever [theta[mu][nu]] and
    [theta[rho][sigma]] are the same float. *)
Theorem C9_pair_exchange_up_to_term2_order (k : vec4) :
  Py.ge (abs (minkowski_k2 k)) 1e-10 = true ->
  exists theta P,
    theta_tensor k = Ok theta /\ P2_tensor k = Ok P
    /\ (forall mu nu, theta[[mu]][[nu]] = theta[[nu]][[mu]])
    /\ forall mu nu rho sigma,
         P[[mu]][[nu]][[rho]][[sigma]]
         = term1 theta mu nu rho sigma
           - (1.0 / 3.0) * theta[[mu]][[nu]] * theta[[rho]][[sigma]]
         /\ P[[rho]][[sigma]][[mu]][[nu]]
            = term1 theta mu nu rho sigma
              - (1.0 / 3.0) * theta[[rho]][[sigma]] * theta[[mu]][[nu]]
         /\ (theta[[mu]][[nu]] = theta[[rho]][[sigma]] ->
             P[[mu]][[nu]][[rho]][[sigma]] = P[[rho]][[sigma]][[mu]][[nu]]).
Proof.
  intros H. apply leb_true_ltb_false in H.
  exists (theta_of k), (P2_of k).
  split; [ now apply theta_tensor_ok | ].
  split; [ now apply P2_tensor_ok | ].
  split; [ apply theta_of_sym | ].
  intros mu nu rho sigma. rewrite !P2_of_entry. unfold P2_entry.
  rewrite (term1_exchange k mu nu rho sigma). unfold term2.
  split; [ reflexivity | split; [ reflexivity | ] ].
  intros E. now rewrite E.
Qed.

Lemma C9_pair_exchange_up_to_term2_order_witness :
  exists theta P,
    theta_tensor (L4 2.0 1.0 0.0 0.0) = Ok theta
    /\ P2_tensor (L4 2.0 1.0 0.0 0.0) = Ok P
    /\ (forall mu nu, theta[[mu]][[nu]] = theta[[nu]][[mu]])
    /\ forall mu nu rho sigma,
         P[[mu]][[nu]][[rho]][[sigma]]
         = term1 theta mu nu rho sigma
           - (1.0 / 3.0) * theta[[mu]][[nu]] * theta[[rho]][[sigma]]
         /\ P[[rho]][[sigma]][[mu]][[nu]]
            = term1 theta mu nu rho sigma
              - (1.0 / 3.0) * theta[[rho]][[sigma]] * theta[[mu]][[nu]]
         /\ (theta[[mu]][[nu]] = theta[[rho]][[sigma]] ->
             P[[mu]][[nu]][[rho]][[sigma]] = P[[rho]][[sigma]][[mu]][[nu]]).
Proof.
  apply (C9_pair_exchange_up_to_term2_order (L4 2.0 1.0 0.0 0.0)).
  reflexivity.
Defined.

(** C9, as stated, fails on the swept vector [(2.0, 1.0, 0.0, 0.0)], which
    passes the guard: the entries [P[0][0][1][1]] and [P[1][1][0][0]] of the
    projector [P2_tensor] returns differ in the last bit. *)
Lemma C9_pair_exchange_counterexample :
  exists P,
    Py.ge (abs (minkowski_k2 (L4 2.0 1.0 0.0 0.0))) 1e-10 = true
    /\ P2_tensor (L4 2.0 1.0 0.0 0.0) = Ok P
    /\ P[[I0]][[I0]][[I1]][[I1]] = 0x1.2f684bda12f69p-2
    /\ P[[I1]][[I1]][[I0]][[I0]] = 0x1.2f684bda12f68p-2
    /\ (P[[I0]][[I0]][[I1]][[I1]] =? P[[I1]][[I1]][[I0]][[I0]]) = false.
Proof.
  exists (P2_of (L4 2.0 1.0 0.0 0.0)).
  split; [ reflexivity | ].
  split; [ apply P2_tensor_ok; reflexivity | ].
  repeat split; vm_compute; reflexivity.
Qed.

(** C10. The hard-coded sweep visits 12 vectors; the three with
    [omega = kx] have [norm2] exactly [0.0] and are the ones skipped; the
    sampler returns 9 rows, for the other nine vectors in sweep order. *)
Theorem C10_hard_coded_sweep_writes_nine_rows :
  length swept = 12%nat
  /\ filter skipped swept
     = [L4 0.5 0.5 0.0 0.0; L4 1.0 1.0 0.0 0.0; L4 1.5 1.5 0.0 0.0]
  /\ map minkowski_k2 (filter skipped swept) = [0.0; 0.0; 0.0]
  /\ exists rs,
       rows = Ok rs /\ length rs = 9%nat
       /\ map (fun r => (omega r, kx r)) rs
          = [(0.5, 1.0); (0.5, 1.5); (1.0, 0.5); (1.0, 1.5); (1.5, 0.5);
             (1.5, 1.0); (2.0, 0.5); (2.0, 1.0); (2.0, 1.5)].
Proof.
  split; [ reflexivity | ].
  split; [ vm_compute; reflexivity | ].
  split; [ vm_compute; reflexivity | ].
  exists (map (sample_row q) (filter (fun k => negb (skipped k)) swept)).
  split; [ unfold rows, sampler; now rewrite for_each_loop_body | ].
  split; vm_compute; reflexivity.
Qed.

End Sampler.

(** * The parameter grid scanner *)

Section Scanner.

Import scan_healthy_band.
Local Open Scope float_scope.

(** The generator's output does not depend on the fuel once the loop has
    ended within it. *)
Lemma frange_more_fuel (fuel : nat) :
  forall (x stop step : float) (l : list float),
    frange fuel x stop step = Some l ->
    forall extra, frange (fuel + extra) x stop step = Some l.
Proof.
  induction fuel as [ | fuel IH]; intros x stop step l H extra.
  - discriminate.
  - cbn [frange Nat.add] in *.
    destruct (x <=? stop + 1e-9); [ | exact H ].
    destruct (frange fuel (x + step) stop step) as [l' | ] eqn:E;
      [ | discriminate ].
    now rewrite (IH _ _ _ _ E extra).
Qed.

(** The division of the loop body is guarded by [ghost_ok]: it never raises. *)
Lemma loop_body_returns (Pprime P2prime : float) :
  loop_body Pprime P2prime = Ok (grid_row_of Pprime P2prime).
Proof.
  unfold loop_body, grid_row_of.
  destruct (Py.gt (Zt_of Pprime P2prime) 0.0) eqn:G; [ | reflexivity ].
  rewrite (truediv_ok _ _ (ltb_zero_neq _ G)). reflexivity.
Qed.

Lemma inner_loop_returns (Pprime : float) (p2s : list float) :
  forall out,
    inner_loop Pprime p2s out = Ok (out ++ map (grid_row_of Pprime) p2s).
Proof.
  induction p2s as [ | P2prime p2s IH]; intros out; cbn [inner_loop map].
  - now rewrite app_nil_r.
  - rewrite loop_body_returns. cbn [bind]. rewrite IH.
    now rewrite <- app_assoc.
Qed.

Lemma outer_loop_returns (fuel : nat) (p2s : list float) :
  frange fuel P2PRIME_MIN P2PRIME_MAX P2PRIME_STEP = Some p2s ->
  forall ps out, outer_loop fuel ps out = Some (Ok (out ++ grid ps p2s)).
Proof.
  intros H ps. induction ps as [ | Pprime ps IH]; intros out;
    cbn [outer_loop grid flat_map].
  - now rewrite app_nil_r.
  - rewrite H, inner_loop_returns, IH. fold (grid ps p2s).
    now rewrite <- app_assoc.
Qed.

(** Whatever the fuel, a scan that ends has written a dense grid. *)
Lemma scan_rows_are_grid (fuel : nat) (rws : list grid_row) :
  scan fuel = Some (Ok rws) -> exists ps p2s, rws = grid ps p2s.
Proof.
  unfold scan.
  destruct (frange fuel PPRIME_MIN PPRIME_MAX PPRIME_STEP) as [ps | ];
    [ | discriminate ].
  destruct (frange fuel P2PRIME_MIN P2PRIME_MAX P2PRIME_STEP) as [p2s | ] eqn:E.
  - rewrite (outer_loop_returns fuel p2s E). intros [= <-].
    now exists ps, p2s.
  - destruct ps as [ | Pprime ps]; cbn [outer_loop]; rewrite ?E;
      [ | discriminate ].
    intros [= <-]. now exists [], [].
Qed.

Lemma in_grid (ps p2s : list float) (r : grid_row) :
  In r (grid ps p2s) -> exists Pprime P2prime, r = grid_row_of Pprime P2prime.
Proof.
  unfold grid. rewrite in_flat_map. intros [Pprime [_ H] ].
  apply in_map_iff in H. destruct H as [P2prime [H _] ].
  now exists Pprime, P2prime.
Qed.

Lemma scan_row_shape (fuel : nat) (rws : list grid_row) (r : grid_row) :
  scan fuel = Some (Ok rws) -> In r rws ->
  exists Pprime P2prime, r = grid_row_of Pprime P2prime.
Proof.
  intros Hscan Hin.
  destruct (scan_rows_are_grid fuel rws Hscan) as [ps [p2s ->] ].
  exact (in_grid ps p2s r Hin).
Qed.

Lemma scan_enough_fuel (extra : nat) :
  scan (42 + extra) = Some (Ok (grid Pprime_axis P2prime_axis)).
Proof.
  unfold scan.
  rewrite (frange_more_fuel 42 PPRIME_MIN PPRIME_MAX PPRIME_STEP Pprime_axis)
    by (vm_compute; reflexivity).
  apply (outer_loop_returns (42 + extra) P2prime_axis).
  apply frange_more_fuel. vm_compute. reflexivity.
Qed.

(** C3. With the script's constants both generators end and yield 41 values
    each, the scan ends without an exception, and its rows are one row per
    pair of the two axes, none skipped: 41 * 41 = 1681 rows, which is also
    what [((MAX - MIN) / STEP + 1)] squared evaluates to in floats. *)
Theorem C3_scan_writes_dense_grid_of_1681_rows :
  (forall extra,
     frange (42 + extra) PPRIME_MIN PPRIME_MAX PPRIME_STEP = Some Pprime_axis
     /\ frange (42 + extra) P2PRIME_MIN P2PRIME_MAX P2PRIME_STEP
        = Some P2prime_axis
     /\ scan (42 + extra) = Some (Ok (grid Pprime_axis P2prime_axis)))
  /\ length Pprime_axis = 41%nat
  /\ length P2prime_axis = 41%nat
  /\ map (fun r => (Pprime r, P2prime r)) (grid Pprime_axis P2prime_axis)
     = list_prod Pprime_axis P2prime_axis
  /\ length (grid Pprime_axis P2prime_axis) = 1681%nat
  /\ ((PPRIME_MAX - PPRIME_MIN) / PPRIME_STEP + 1.0)
     * ((P2PRIME_MAX - P2PRIME_MIN) / P2PRIME_STEP + 1.0) = 1681.0.
Proof.
  split; [ intros extra; split; [ | split ] | ].
  - apply frange_more_fuel. vm_compute. reflexivity.
  - apply frange_more_fuel. vm_compute. reflexivity.
  - apply scan_enough_fuel.
  - repeat split; vm_compute; reflexivity.
Qed.

(** C4. The loop body returns a row for every grid pair (its division never
    raises), and in every row of a finished scan: [Zs] is [Pprime], [Zt] is
    [Pprime + 2*X0*P2prime], [ghost_ok] is [int(Zt > 0)], [grad_ok] is
    [int(Zs > 0)], [cs2] is present exactly when [ghost_ok] is 1, and when
    present it is the float quotient [Zs / Zt]. *)
Theorem C4_row_flags_and_ratio :
  (forall p p2, exists r,
     loop_body p p2 = Ok r /\ Pprime r = p /\ P2prime r = p2)
  /\ forall fuel rws r,
       scan fuel = Some (Ok rws) -> In r rws ->
       Zs r = Pprime r
       /\ Zt r = Pprime r + 2.0 * X0 * P2prime r
       /\ ghost_ok r = Py.int_of_bool (Py.gt (Zt r) 0.0)
       /\ grad_ok r = Py.int_of_bool (Py.gt (Zs r) 0.0)
       /\ (cs2 r <> None <-> ghost_ok r = 1%Z)
       /\ (cs2 r = None <-> ghost_ok r = 0%Z)
       /\ (forall c, cs2 r = Some c -> c = Zs r / Zt r).
Proof.
  split.
  - intros p p2. exists (grid_row_of p p2).
    split; [ apply loop_body_returns | split; reflexivity ].
  - intros fuel rws r Hscan Hin.
    destruct (scan_row_shape fuel rws r Hscan Hin) as [p [p2 ->] ].
    unfold grid_row_of. cbn [Zs Zt Pprime P2prime cs2 ghost_ok grad_ok].
    fold (Zt_of p p2).
    split; [ reflexivity | ]. split; [ reflexivity | ].
    split; [ reflexivity | ]. split; [ reflexivity | ].
    destruct (Py.gt (Zt_of p p2) 0.0); cbn [Py.int_of_bool].
    + split; [ split; [ reflexivity | discriminate ] | ].
      split; [ split; discriminate | ].
      now intros c [= <-].
    + split; [ split; [ intros H; now elim H | discriminate ] | ].
      split; [ split; reflexivity | discriminate ].
Qed.

Lemma C4_row_flags_and_ratio_witness :
  Zs (grid_row_of (-2.0) (-2.0)) = Pprime (grid_row_of (-2.0) (-2.0))
  /\ ghost_ok (grid_row_of (-2.0) (-2.0)) = 0%Z
  /\ cs2 (grid_row_of (-2.0) (-2.0)) = None.
Proof.
  assert (Hin : In (grid_row_of (-2.0) (-2.0)) (grid Pprime_axis P2prime_axis))
    by (vm_compute; left; reflexivity).
  destruct (proj2 C4_row_flags_and_ratio 42%nat _ _ (scan_enough_fuel 0) Hin)
    as [HZs [_ [Hghost [_ [_ [Hnone _] ] ] ] ] ].
  split; [ exact HZs | ].
  split; [ exact Hghost | ].
  apply Hnone. exact Hghost.
Defined.

End Scanner.

(** * The report generator *)

Section Report.

Import make_all_figures_and_tables.
Local Open Scope float_scope.

Lemma sum_int_shift (l : list Z) (a : Z) :
  fold_left Z.add l a = (a + Py.sum_int l)%Z.
Proof.
  unfold Py.sum_int. revert a.
  induction l as [ | x l IH]; intros a; cbn [fold_left].
  - lia.
  - rewrite (IH (a + x)%Z), (IH (0 + x)%Z). lia.
Qed.

Lemma count_if_nil (cond : float -> bool) : count_if cond [] = 0%Z.
Proof. reflexivity. Qed.

Lemma count_if_cons (cond : float -> bool) (v : float) (l : list float) :
  count_if cond (v :: l) = (Py.int_of_bool (cond v) + count_if cond l)%Z.
Proof.
  unfold count_if. cbn [filter].
  destruct (cond v); cbn [map Py.int_of_bool]; [ | reflexivity ].
  unfold Py.sum_int at 1. cbn [fold_left]. rewrite sum_int_shift. lia.
Qed.

Lemma count_if_bounds (cond : float -> bool) (l : list float) :
  (0 <= count_if cond l <= Z.of_nat (length l))%Z.
Proof.
  induction l as [ | v l IH].
  - rewrite count_if_nil. cbn [length]. lia.
  - rewrite count_if_cons. cbn [length].
    destruct (cond v); cbn [Py.int_of_bool]; lia.
Qed.

(** How one value enters the three counts: a NaN enters none, a zero only
    [n_zero], any other value exactly one of [n_pos] and [n_neg], and
    [n_zero] as well when it lies inside the band. *)
Lemma counts_of_one_value (v : float) :
  (Py.int_of_bool (Py.gt v 0.0%float) + Py.int_of_bool (v <? 0.0)%float
   + Py.int_of_bool (abs v <? 1e-12)%float + Py.int_of_bool (is_nan v)
   = 1 + Py.int_of_bool (counted_twice v))%Z.
Proof.
  unfold counted_twice, Py.gt, is_nan.
  rewrite !ltb_spec, !eqb_spec, abs_spec. unfold SFltb, SFeqb.
  replace (Prim2SF 0.0) with (S754_zero false) by reflexivity.
  replace (Prim2SF 1e-12) with (S754_finite false 4951760157141521 (-92))
    by (vm_compute; reflexivity).
  destruct (Prim2SF v) as [sv | sv | | sv mv ev]; cbn [SFabs SFcompare].
  - reflexivity.
  - now destruct sv.
  - reflexivity.
  - rewrite Z.compare_refl.
    change PosDef.Pos.compare_cont with Pos.compare_cont.
    rewrite Pos.compare_cont_refl.
    destruct sv; cbn [CompOpp negb andb Py.int_of_bool];
      rewrite ?andb_true_r;
      destruct (ev ?= -92)%Z;
      try destruct (Pos.compare_cont Eq mv 4951760157141521);
      reflexivity.
Qed.

Lemma stats_counts (F2 : list float) :
  total (make_table_spin2_F2_stats F2) = Z.of_nat (length F2)
  /\ n_pos (make_table_spin2_F2_stats F2) = count_if (fun v => Py.gt v 0.0) F2
  /\ n_neg (make_table_spin2_F2_stats F2) = count_if (fun v => v <? 0.0) F2
  /\ n_zero (make_table_spin2_F2_stats F2)
     = count_if (fun v => abs v <? 1e-12) F2.
Proof. now destruct F2. Qed.

Lemma counts_identity (F2 : list float) :
  (count_if (fun v => Py.gt v 0.0%float) F2
   + count_if (fun v => (v <? 0.0)%float) F2
   + count_if (fun v => (abs v <? 1e-12)%float) F2 + count_if is_nan F2
   = Z.of_nat (length F2) + count_if counted_twice F2)%Z.
Proof.
  induction F2 as [ | v F2 IH].
  - reflexivity.
  - rewrite !count_if_cons. cbn [length].
    pose proof (counts_of_one_value v). lia.
Qed.

Lemma count_if_none (cond : float -> bool) (l : list float) :
  Forall (fun v => cond v = false) l -> count_if cond l = 0%Z.
Proof.
  induction 1 as [ | v l Hv _ IH].
  - reflexivity.
  - rewrite count_if_cons, Hv, IH. reflexivity.
Qed.

(** C5, as the code has it. The three counts add up to [total], less the
    NaN values (which enter no count), plus the non-zero values below
    [1e-12] in absolute value (which enter [n_zero] and one of [n_pos],
    [n_neg]).  So [n_pos + n_neg <= total] and [n_zero <= total] always, and
    [n_pos + n_neg + n_zero <= total] for every list in which each value
    inside the band [|v| < 1e-12] is a zero. *)
Theorem C5_counts_overlap_inside_zero_band (F2 : list float) :
  (n_pos (make_table_spin2_F2_stats F2) + n_neg (make_table_spin2_F2_stats F2)
   + n_zero (make_table_spin2_F2_stats F2) + count_if is_nan F2
   = total (make_table_spin2_F2_stats F2) + count_if counted_twice F2)%Z
  /\ (n_pos (make_table_spin2_F2_stats F2)
      + n_neg (make_table_spin2_F2_stats F2)
      <= total (make_table_spin2_F2_stats F2))%Z
  /\ (n_zero (make_table_spin2_F2_stats F2)
      <= total (make_table_spin2_F2_stats F2))%Z
  /\ (Forall (fun v => (abs v <? 1e-12) = true -> (v =? 0.0) = true) F2 ->
      (n_pos (make_table_spin2_F2_stats F2)
       + n_neg (make_table_spin2_F2_stats F2)
       + n_zero (make_table_spin2_F2_stats F2)
       <= total (make_table_spin2_F2_stats F2))%Z).
Proof.
  destruct (stats_counts F2) as [-> [-> [-> ->] ] ].
  pose proof (counts_identity F2) as Hid.
  pose proof (count_if_bounds is_nan F2) as Hnan.
  pose proof (count_if_bounds counted_twice F2) as Htwice.
  pose proof (count_if_bounds (fun v => abs v <? 1e-12) F2) as Hzero.
  pose proof (count_if_bounds (fun v => Py.gt v 0.0) F2) as Hpos.
  pose proof (count_if_bounds (fun v => v <? 0.0) F2) as Hneg.
  split; [ exact Hid | ].
  assert (Hle : (count_if counted_twice F2
                 <= count_if (fun v => (abs v <? 1e-12)%float) F2)%Z).
  { clear. induction F2 as [ | v F2 IH].
    - reflexivity.
    - rewrite !count_if_cons. unfold counted_twice at 1.
      destruct (abs v <? 1e-12), (v =? 0.0); cbn [andb negb Py.int_of_bool]; lia. }
  split; [ lia | ]. split; [ lia | ].
  intros Hband.
  rewrite (count_if_none counted_twice F2) in Hid; [ lia | ].
  clear -Hband. induction Hband as [ | v F2 Hv _ IH]; constructor; [ | exact IH ].
  unfold counted_twice. destruct (abs v <? 1e-12); [ | reflexivity ].
  now rewrite (Hv eq_refl).
Qed.

Lemma C5_counts_overlap_inside_zero_band_witness :
  (n_pos (make_table_spin2_F2_stats [1.0; -2.0; 0.0; 3.5]%float)
   + n_neg (make_table_spin2_F2_stats [1.0; -2.0; 0.0; 3.5]%float)
   + n_zero (make_table_spin2_F2_stats [1.0; -2.0; 0.0; 3.5]%float)
   <= total (make_table_spin2_F2_stats [1.0; -2.0; 0.0; 3.5]%float))%Z.
Proof.
  apply (C5_counts_overlap_inside_zero_band [1.0; -2.0; 0.0; 3.5]%float).
  repeat constructor; vm_compute; intros H; first [ discriminate H | reflexivity ].
Defined.

(** C5, as stated, fails on the one-value list [[1e-13]%float]: the value is
    counted in [n_pos] and in [n_zero], so the three counts add up to 2
    against a [total] of 1. *)
Lemma C5_counts_counterexample :
  total (make_table_spin2_F2_stats [1e-13]%float) = 1%Z
  /\ n_pos (make_table_spin2_F2_stats [1e-13]%float) = 1%Z
  /\ n_neg (make_table_spin2_F2_stats [1e-13]%float) = 0%Z
  /\ n_zero (make_table_spin2_F2_stats [1e-13]%float) = 1%Z
  /\ (n_pos (make_table_spin2_F2_stats [1e-13]%float)
      + n_neg (make_table_spin2_F2_stats [1e-13]%float)
      + n_zero (make_table_spin2_F2_stats [1e-13]%float)
      <=? total (make_table_spin2_F2_stats [1e-13]%float))%Z = false.
Proof. repeat split; vm_compute; reflexivity. Qed.

Lemma y_vals_map {R : Type} (f g : R -> float) (l : list R) :
  y_vals (map f l) (map g l) = map (fun r => y_of (f r) (g r)) l.
Proof.
  unfold y_vals. induction l as [ | r l IH]; cbn [map combine].
  - reflexivity.
  - now rewrite IH.
Qed.

End Report.

(** * Further facts about binary64 arithmetic *)

Section OrderFacts.

Local Open Scope float_scope.

Lemma ltb_asym (x y : float) : (x <? y) = true -> (y <? x) = false.
Proof.
  rewrite !ltb_spec. unfold SFltb.
  rewrite (SFcompare_antisym (Prim2SF x) (Prim2SF y)).
  now destruct (SFcompare (Prim2SF x) (Prim2SF y)) as [ [] |].
Qed.

Lemma ltb_leb (x y : float) : (x <? y) = true -> (x <=? y) = true.
Proof.
  rewrite ltb_spec, leb_spec. unfold SFltb, SFleb.
  now destruct (SFcompare (Prim2SF x) (Prim2SF y)) as [ [] |].
Qed.

(** Nothing is below a NaN, and a NaN is below nothing. *)
Lemma ltb_nan_r (x y : float) : is_nan y = true -> (x <? y) = false.
Proof.
  unfold is_nan. rewrite eqb_spec, ltb_spec. unfold SFeqb, SFltb.
  destruct (Prim2SF y) as [sy | sy | | sy my ey] eqn:Ey; cbn [SFcompare].
  - discriminate.
  - now destruct sy.
  - intros _. now destruct (Prim2SF x).
  - rewrite Z.compare_refl.
    change PosDef.Pos.compare_cont with Pos.compare_cont.
    rewrite Pos.compare_cont_refl. now destruct sy.
Qed.

Lemma ltb_nan_l (x y : float) : is_nan x = true -> (x <? y) = false.
Proof.
  unfold is_nan. rewrite eqb_spec, ltb_spec. unfold SFeqb, SFltb.
  destruct (Prim2SF x) as [sx | sx | | sx mx ex] eqn:Ex; cbn [SFcompare].
  - discriminate.
  - now destruct sx.
  - reflexivity.
  - rewrite Z.compare_refl.
    change PosDef.Pos.compare_cont with Pos.compare_cont.
    rewrite Pos.compare_cont_refl. now destruct sx.
Qed.

(** Two floats that are not NaN are comparable. *)
Lemma SFcompare_some (x y : spec_float) :
  SFeqb x x = true -> SFeqb y y = true -> exists c, SFcompare x y = Some c.
Proof.
  unfold SFeqb.
  destruct x as [sx | sx | | sx mx ex], y as [sy | sy | | sy my ey];
    cbn [SFcompare]; try discriminate; intros _ _; eexists; reflexivity.
Qed.

Lemma not_ltb_leb (x y : float) :
  is_nan x = false -> is_nan y = false -> (y <? x) = false -> (x <=? y) = true.
Proof.
  unfold is_nan. rewrite !negb_false_iff, !eqb_spec, ltb_spec, leb_spec.
  unfold SFltb, SFleb. intros Hx Hy.
  rewrite (SFcompare_antisym (Prim2SF x) (Prim2SF y)).
  destruct (SFcompare_some _ _ Hx Hy) as [c ->].
  now destruct c.
Qed.

Lemma leb_refl (x : float) : is_nan x = false -> (x <=? x) = true.
Proof.
  unfold is_nan. rewrite negb_false_iff, eqb_spec, leb_spec.
  unfold SFeqb, SFleb. now destruct (SFcompare (Prim2SF x) (Prim2SF x)) as [ [] |].
Qed.

Lemma lex_spec (e1 : Z) (m1 : positive) (e2 : Z) (m2 : positive) :
  (lex e1 m1 e2 m2 = Lt <-> (e1 < e2 \/ (e1 = e2 /\ (m1 < m2)%positive))%Z)
  /\ (lex e1 m1 e2 m2 = Eq <-> (e1 = e2 /\ m1 = m2))
  /\ (lex e1 m1 e2 m2 = Gt <-> (e2 < e1 \/ (e1 = e2 /\ (m2 < m1)%positive))%Z).
Proof.
  unfold lex. change (Pos.compare_cont Eq m1 m2) with (m1 ?= m2)%positive.
  destruct (Z.compare_spec e1 e2) as [E | L | G];
    destruct (Pos.compare_spec m1 m2) as [E' | L' | G'];
    (split; [ | split ]); split; intros Hyp;
    first [ discriminate Hyp | reflexivity | lia ].
Qed.

Lemma lex_opp (e1 : Z) (m1 : positive) (e2 : Z) (m2 : positive) :
  match (e1 ?= e2)%Z with
  | Eq => CompOpp (Pos.compare_cont Eq m1 m2)
  | Lt => Gt
  | Gt => Lt
  end = CompOpp (lex e1 m1 e2 m2).
Proof. unfold lex. now destruct (e1 ?= e2)%Z. Qed.

Lemma SFleb_trans (x y z : spec_float) :
  SFleb x y = true -> SFleb y z = true -> SFleb x z = true.
Proof.
  unfold SFleb.
  destruct x as [sx | sx | | sx mx ex], y as [sy | sy | | sy my ey],
           z as [sz | sz | | sz mz ez];
    cbn [SFcompare]; try discriminate; try reflexivity;
    try (destruct sx; discriminate); try (destruct sy; discriminate);
    try (destruct sz; discriminate);
    try (destruct sx, sy; discriminate); try (destruct sy, sz; discriminate);
    try (destruct sx, sy, sz; (discriminate || reflexivity)).
  all: change PosDef.Pos.compare_cont with Pos.compare_cont.
  all: rewrite ?lex_opp.
  all: fold (lex ex mx ey my); fold (lex ey my ez mz); fold (lex ex mx ez mz).
  all: pose proof (lex_spec ex mx ey my) as [Hl1 [He1 Hg1] ].
  all: pose proof (lex_spec ey my ez mz) as [Hl2 [He2 Hg2] ].
  all: pose proof (lex_spec ex mx ez mz) as [Hl3 [He3 Hg3] ].
  all: destruct sx, sy, sz; try discriminate; try reflexivity.
  all: destruct (lex ex mx ey my) eqn:C1; try discriminate; intros _.
  all: destruct (lex ey my ez mz) eqn:C2; try discriminate; intros _.
  all: destruct (lex ex mx ez mz) eqn:C3; try reflexivity; exfalso.
  all: repeat match goal with
         | H : ?a = ?a <-> _ |- _ => apply proj1 in H; specialize (H eq_refl)
         | H : ?a = ?b <-> _ |- _ => clear H
         end.
  all: lia.
Qed.

Lemma leb_trans (x y z : float) :
  (x <=? y) = true -> (y <=? z) = true -> (x <=? z) = true.
Proof. rewrite !leb_spec. apply SFleb_trans. Qed.

(** Negation: an involution, which cancels in a product. *)
Lemma opp_involutive (x : float) : - - x = x.
Proof.
  apply Prim2SF_inj. rewrite !opp_spec.
  destruct (Prim2SF x) as [ [] | [] | | [] mx ex]; reflexivity.
Qed.

Lemma mul_opp_opp (x y : float) : (- x) * (- y) = x * y.
Proof.
  apply Prim2SF_inj. rewrite !mul_spec, !opp_spec.
  unfold SF64mul, SFmul.
  destruct (Prim2SF x) as [ [] | [] | | [] mx ex],
           (Prim2SF y) as [ [] | [] | | [] my ey]; reflexivity.
Qed.

(** Adding a zero step leaves a float where it is with respect to a bound. *)
Lemma add_zero_leb (x b : float) :
  (x <=? b) = true -> (x + 0.0 <=? b) = true.
Proof.
  rewrite !leb_spec, add_spec. unfold SFleb, SF64add, SFadd.
  replace (Prim2SF 0.0) with (S754_zero false) by reflexivity.
  destruct (Prim2SF x) as [ [] | [] | | [] mx ex]; try (intros H; exact H);
    now destruct (Prim2SF b).
Qed.

End OrderFacts.

(** * More on the tensor contraction sampler *)

Section SamplerMore.

Import check_spin2_structure.
Local Open Scope float_scope.

Lemma fold_left_ext {A B : Type} (f g : A -> B -> A) (l : list B) :
  (forall a b, f a b = g a b) -> forall a, fold_left f l a = fold_left g l a.
Proof.
  intros H. induction l as [ | b l IH]; intros a; cbn [fold_left].
  - reflexivity.
  - now rewrite H, IH.
Qed.

(** [N_tensor] is symmetric within each index pair and under the exchange
    of the two pairs, exactly, for all float vectors [q] and [k]. *)
Theorem N_tensor_symmetries (q k : vec4) (mu nu rho sigma : idx) :
  (N_tensor q k)[[mu]][[nu]][[rho]][[sigma]]
  = (N_tensor q k)[[nu]][[mu]][[rho]][[sigma]]
  /\ (N_tensor q k)[[mu]][[nu]][[rho]][[sigma]]
     = (N_tensor q k)[[mu]][[nu]][[sigma]][[rho]]
  /\ (N_tensor q k)[[mu]][[nu]][[rho]][[sigma]]
     = (N_tensor q k)[[rho]][[sigma]][[mu]][[nu]].
Proof.
  unfold N_tensor. rewrite !nth4_tabulate. cbv zeta.
  split; [ | split ].
  - now rewrite (add_comm (q[[mu]] * k[[nu]])).
  - now rewrite (add_comm (q[[rho]] * k[[sigma]])).
  - apply mul_comm.
Qed.

(** The contraction does not depend on which tensor is passed first. *)
Theorem contract_P2_N_comm (P2 N : tensor4) :
  contract_P2_N P2 N = contract_P2_N N P2.
Proof.
  unfold contract_P2_N.
  apply fold_left_ext. intros v1 mu.
  apply fold_left_ext. intros v2 nu.
  apply fold_left_ext. intros v3 rho.
  apply fold_left_ext. intros v4 sigma.
  now rewrite mul_comm.
Qed.

Lemma nth4_neg4 (k : vec4) (i : idx) : (neg4 k)[[i]] = - k[[i]].
Proof. unfold neg4. now rewrite nth4_tabulate. Qed.

Lemma minkowski_k2_neg4 (k : vec4) : minkowski_k2 (neg4 k) = minkowski_k2 k.
Proof.
  unfold minkowski_k2, Py.sum. cbn [map fold_left].
  rewrite !nth4_neg4, !mul_opp_opp. reflexivity.
Qed.

Lemma theta_of_neg4 (k : vec4) : theta_of (neg4 k) = theta_of k.
Proof.
  unfold theta_of, tabulate, theta_entry.
  rewrite minkowski_k2_neg4, !nth4_neg4, !mul_opp_opp. reflexivity.
Qed.

(** The projector is even in the momentum: negating every component of [k]
    changes neither [k^2], nor whether [theta_tensor] and [P2_tensor] raise,
    nor any entry of the tensors they return. *)
Theorem P2_tensor_even (k : vec4) :
  minkowski_k2 (neg4 k) = minkowski_k2 k
  /\ theta_tensor (neg4 k) = theta_tensor k
  /\ P2_tensor (neg4 k) = P2_tensor k.
Proof.
  split; [ apply minkowski_k2_neg4 | ].
  assert (Htheta : theta_tensor (neg4 k) = theta_tensor k).
  { destruct (abs (minkowski_k2 k) <? 1e-10) eqn:G.
    - rewrite (theta_tensor_raises k G).
      apply theta_tensor_raises. now rewrite minkowski_k2_neg4.
    - rewrite (theta_tensor_ok k G), <- theta_of_neg4.
      apply theta_tensor_ok. now rewrite minkowski_k2_neg4. }
  split; [ exact Htheta | ].
  unfold P2_tensor. now rewrite Htheta.
Qed.

(** Every row the sampler returns, for any list of swept vectors, is
    consistent: its [k2] is the squared norm of its own four components,
    that norm is outside the skip band and not zero, and its [F2] is the
    contraction of the projector and the [N] tensor of those components. *)
Theorem sampler_rows_consistent (q : vec4) (ks : list vec4) :
  exists rows,
    sampler q ks = Ok rows
    /\ Forall (fun r =>
         In (row_k r) ks
         /\ k2 r = minkowski_k2 (row_k r)
         /\ (abs (k2 r) <? 1e-8) = false
         /\ (k2 r =? 0.0) = false
         /\ exists P, P2_tensor (row_k r) = Ok P
              /\ F2 r = contract_P2_N P (N_tensor q (row_k r))) rows.
Proof.
  exists (map (sample_row q) (filter (fun k => negb (skipped k)) ks)).
  split; [ unfold sampler; now rewrite for_each_loop_body | ].
  apply Forall_forall. intros r Hr.
  apply in_map_iff in Hr. destruct Hr as [k [<- Hk] ].
  apply filter_In in Hk. destruct Hk as [Hin Hkeep].
  apply negb_true_iff in Hkeep.
  rewrite row_k_sample_row. cbn [k2 F2 sample_row].
  split; [ exact Hin | ]. split; [ reflexivity | ].
  split; [ exact Hkeep | ].
  split; [ apply guard_nonzero, retained_passes_guard, Hkeep | ].
  exists (P2_of k). split; [ | reflexivity ].
  apply P2_tensor_ok, retained_passes_guard, Hkeep.
Qed.

Lemma sum_ones_length {A : Type} (l : list A) :
  Py.sum_int (map (fun _ => 1%Z) l) = Z.of_nat (length l).
Proof.
  induction l as [ | a l IH]; cbn [map length].
  - reflexivity.
  - unfold Py.sum_int at 1. cbn [fold_left]. rewrite sum_int_shift, IH. lia.
Qed.

(** How one value enters the sampler's two closing counts. *)
Lemma sign_of_one_value (v : float) :
  (Py.int_of_bool (Py.gt v 0.0%float) + Py.int_of_bool (v <? 0.0)%float
   + Py.int_of_bool ((v =? 0.0)%float || is_nan v) = 1)%Z.
Proof.
  unfold Py.gt, is_nan.
  rewrite !ltb_spec, !eqb_spec. unfold SFltb, SFeqb.
  replace (Prim2SF 0.0) with (S754_zero false) by reflexivity.
  destruct (Prim2SF v) as [sv | sv | | sv mv ev]; cbn [SFcompare].
  - reflexivity.
  - now destruct sv.
  - reflexivity.
  - rewrite Z.compare_refl.
    change PosDef.Pos.compare_cont with Pos.compare_cont.
    rewrite Pos.compare_cont_refl. now destruct sv.
Qed.

(** The closing check of the sampler: no row is counted both as positive
    and as negative, so the two counts never add up to more than the number
    of rows; they fall short of it by the rows whose [F2] is a zero or a
    NaN. *)
Theorem num_pos_num_neg_disjoint (rs : list row) :
  (0 <= num_pos rs)%Z /\ (0 <= num_neg rs)%Z
  /\ (num_pos rs + num_neg rs
      + Z.of_nat (length (filter (fun r => (F2 r =? 0.0)%float || is_nan (F2 r))
                                 rs))
      = Z.of_nat (length rs))%Z.
Proof.
  unfold num_pos, num_neg. rewrite !sum_ones_length.
  split; [ lia | ]. split; [ lia | ].
  induction rs as [ | r rs IH]; cbn [filter length].
  - reflexivity.
  - pose proof (sign_of_one_value (F2 r)) as Hone.
    destruct (Py.gt (F2 r) 0.0), (F2 r <? 0.0),
             ((F2 r =? 0.0) || is_nan (F2 r));
      cbn [Py.int_of_bool length] in *; lia.
Qed.

End SamplerMore.

(** * More on the grid scanner: the generator [frange] *)

Section FrangeMore.

Import scan_healthy_band.
Local Open Scope float_scope.

Lemma add_nan_leb (x s b : float) : is_nan s = true -> (x + s <=? b) = false.
Proof.
  unfold is_nan. rewrite eqb_spec, leb_spec, add_spec.
  unfold SFeqb, SFleb, SF64add, SFadd.
  destruct (Prim2SF s) as [ss | ss | | ss ms es]; cbn [SFcompare].
  - discriminate.
  - now destruct ss.
  - intros _. now destruct (Prim2SF x).
  - rewrite Z.compare_refl.
    change PosDef.Pos.compare_cont with Pos.compare_cont.
    rewrite Pos.compare_cont_refl. now destruct ss.
Qed.

(** Whenever [frange] ends, no value it has yielded is beyond
    [stop + 1e-9]; it has yielded nothing exactly when [start] fails the
    loop test, and otherwise [start] first; and each later value is the
    previous one plus [step], rounded once. *)
Theorem frange_values (fuel : nat) (start stop step : float) (l : list float) :
  frange fuel start stop step = Some l ->
  Forall (fun v => (v <=? stop + 1e-9) = true) l
  /\ (l = [] <-> (start <=? stop + 1e-9) = false)
  /\ ((start <=? stop + 1e-9) = true -> hd_error l = Some start)
  /\ forall i w, nth_error l (S i) = Some w ->
       exists v, nth_error l i = Some v /\ w = v + step.
Proof.
  revert start l. induction fuel as [ | fuel IH]; intros start l H.
  - discriminate.
  - cbn [frange] in H.
    destruct (start <=? stop + 1e-9) eqn:T.
    + destruct (frange fuel (start + step) stop step) as [l' | ] eqn:E;
        [ | discriminate ].
      injection H as <-.
      destruct (IH _ _ E) as [Hall [Hnil [Hhd Hstep] ] ].
      split; [ now constructor | ].
      split; [ split; discriminate | ].
      split; [ reflexivity | ].
      intros [ | i] w Hw; cbn [nth_error] in *.
      * exists start. split; [ reflexivity | ].
        destruct l' as [ | v l']; [ discriminate | ].
        injection Hw as <-.
        destruct (start + step <=? stop + 1e-9) eqn:T'.
        -- specialize (Hhd eq_refl). now injection Hhd as ->.
        -- destruct Hnil as [_ Hnil]. discriminate (Hnil eq_refl).
      * exact (Hstep i w Hw).
    + injection H as <-.
      split; [ constructor | ].
      split; [ now split | ].
      split; [ discriminate | ].
      intros i w Hw. discriminate.
Qed.

Lemma frange_values_witness :
  Forall (fun v => (v <=? 1.0 + 1e-9) = true) [0.0; 0.5; 1.0]
  /\ ([0.0; 0.5; 1.0] = [] <-> (0.0 <=? 1.0 + 1e-9) = false)
  /\ ((0.0 <=? 1.0 + 1e-9) = true -> hd_error [0.0; 0.5; 1.0] = Some 0.0)
  /\ forall i w, nth_error [0.0; 0.5; 1.0] (S i) = Some w ->
       exists v, nth_error [0.0; 0.5; 1.0] i = Some v /\ w = v + 0.5.
Proof.
  apply (frange_values 4 0.0 1.0 0.5 [0.0; 0.5; 1.0]).
  reflexivity.
Defined.

(** The ways [frange] ends or does not end.  A [start] that fails the loop
    test (beyond the padded bound, or a NaN on either side) yields nothing.
    With a zero [step] and a [start] that passes the test the loop never
    ends: no amount of fuel gives a result.  With a NaN [step] it yields
    [start] alone. *)
Theorem frange_edge_cases (start stop : float) :
  ((start <=? stop + 1e-9) = false ->
     forall fuel step, frange (S fuel) start stop step = Some [])
  /\ ((start <=? stop + 1e-9) = true ->
        forall fuel, frange fuel start stop 0.0 = None)
  /\ ((start <=? stop + 1e-9) = true ->
        forall fuel step, is_nan step = true ->
          frange (S (S fuel)) start stop step = Some [start]).
Proof.
  split; [ | split ].
  - intros T fuel step. cbn [frange]. now rewrite T.
  - intros T fuel. revert start T.
    induction fuel as [ | fuel IH]; intros start T; cbn [frange].
    + reflexivity.
    + rewrite T. now rewrite (IH (start + 0.0) (add_zero_leb _ _ T)).
  - intros T fuel step Hnan. cbn [frange].
    now rewrite T, (add_nan_leb start step _ Hnan).
Qed.

Lemma frange_edge_cases_witness :
  frange 1 3.0 2.0 0.1 = Some []
  /\ frange 1000 (-2.0) 2.0 0.0 = None
  /\ frange 2 (-2.0) 2.0 nan = Some [-2.0].
Proof.
  destruct (frange_edge_cases 3.0 2.0) as [Hout _].
  destruct (frange_edge_cases (-2.0) 2.0) as [_ [Hzero Hnan] ].
  split; [ apply Hout; reflexivity | ].
  split; [ apply Hzero; reflexivity | ].
  apply Hnan; reflexivity.
Defined.

End FrangeMore.

(** * More on the report generator *)

Section ReportMore.

Import make_all_figures_and_tables.
Local Open Scope float_scope.

Lemma select_cons {A : Type} (x : A) (l : list A) (b : bool) (m : list bool) :
  select (x :: l) (b :: m) = if b then x :: select l m else select l m.
Proof. unfold select. cbn [combine filter snd]. now destruct b. Qed.

Lemma select_nil_r {A : Type} (l : list A) : select l [] = [].
Proof. now destruct l. Qed.

Lemma select_combine {A B : Type} (l : list A) (l' : list B) (m : list bool) :
  combine (select l m) (select l' m) = select (combine l l') m.
Proof.
  revert l' m. induction l as [ | x l IH]; intros l' m.
  - reflexivity.
  - destruct l' as [ | y l'].
    + change (select [] m) with (@nil B). rewrite combine_nil.
      cbn [combine]. reflexivity.
    + destruct m as [ | b m].
      * reflexivity.
      * cbn [combine]. rewrite !select_cons.
        destruct b; cbn [combine]; now rewrite IH.
Qed.

Lemma select_length {A B : Type} (l : list A) (l' : list B) (m : list bool) :
  length l = length l' -> length (select l m) = length (select l' m).
Proof.
  revert l' m. induction l as [ | x l IH]; intros [ | y l'] [ | b m] H;
    try reflexivity; try discriminate H.
  rewrite !select_cons. injection H as H.
  destruct b; cbn [length]; now rewrite (IH l' m H).
Qed.

(** A mask as long as the list splits it in two. *)
Lemma select_partition {A : Type} (l : list A) (m : list bool) :
  length m = length l ->
  Permutation (select l m ++ select l (unstable_mask m)) l.
Proof.
  unfold unstable_mask.
  revert m. induction l as [ | x l IH]; intros [ | b m] H;
    try discriminate H.
  - constructor.
  - injection H as H. cbn [map]. rewrite !select_cons.
    destruct b; cbn [negb app].
    + constructor. now apply IH.
    + apply Permutation_sym, Permutation_cons_app, Permutation_sym. now apply IH.
Qed.

Lemma y_vals_length (Pprime P2prime : list float) :
  length (y_vals Pprime P2prime) = Nat.min (length Pprime) (length P2prime).
Proof. unfold y_vals. now rewrite length_map, length_combine. Qed.

Lemma stable_mask_length (ghost_ok grad_ok : list Z) :
  length (stable_mask ghost_ok grad_ok)
  = Nat.min (length ghost_ok) (length grad_ok).
Proof. unfold stable_mask. now rewrite length_map, length_combine. Qed.

(** [make_fig_healthy_band] on four columns of one length: each [scatter]
    call receives an [x] and a [y] list of the same length, and the points
    of the two calls together are the points [(Pprime, y)] of the table,
    each one in exactly one of the two classes. *)
Theorem fig_points_partition
    (Pprime P2prime : list float) (ghost_ok grad_ok : list Z) :
  length P2prime = length Pprime ->
  length ghost_ok = length Pprime ->
  length grad_ok = length Pprime ->
  length (x_stable (make_fig_healthy_band Pprime P2prime ghost_ok grad_ok))
  = length (y_stable (make_fig_healthy_band Pprime P2prime ghost_ok grad_ok))
  /\ length (x_unst (make_fig_healthy_band Pprime P2prime ghost_ok grad_ok))
     = length (y_unst (make_fig_healthy_band Pprime P2prime ghost_ok grad_ok))
  /\ Permutation
       (combine
          (x_stable (make_fig_healthy_band Pprime P2prime ghost_ok grad_ok))
          (y_stable (make_fig_healthy_band Pprime P2prime ghost_ok grad_ok))
        ++ combine
             (x_unst (make_fig_healthy_band Pprime P2prime ghost_ok grad_ok))
             (y_unst (make_fig_healthy_band Pprime P2prime ghost_ok grad_ok)))
       (combine Pprime (y_vals Pprime P2prime)).
Proof.
  intros H2 Hg Hr.
  unfold make_fig_healthy_band. cbn [x_stable y_stable x_unst y_unst].
  assert (Hy : length Pprime = length (y_vals Pprime P2prime))
    by (rewrite y_vals_length; lia).
  split; [ now apply select_length | ].
  split; [ now apply select_length | ].
  rewrite !select_combine. apply select_partition.
  rewrite stable_mask_length, length_combine. lia.
Qed.

Lemma fig_points_partition_witness :
  Permutation
    (combine [1.0; 3.0] [2.0; 4.0] ++ combine [2.0] [3.0])
    (combine [1.0; 2.0; 3.0] (y_vals [1.0; 2.0; 3.0] [0.5; 0.5; 0.5])).
Proof.
  apply (fig_points_partition [1.0; 2.0; 3.0] [0.5; 0.5; 0.5]
           [1; 0; 1]%Z [1; 1; 1]%Z); reflexivity.
Defined.

Lemma stable_count_bounds (mask : list bool) :
  (0 <= Py.sum_int (map (fun _ => 1%Z) (filter (fun s => s) mask))
   <= Z.of_nat (length mask))%Z.
Proof.
  rewrite sum_ones_length.
  pose proof (filter_length_le (fun s : bool => s) mask). lia.
Qed.

Lemma healthy_band_stats_shape
    (Pprime : list float) (ghost_ok grad_ok : list Z) :
  exists frac,
    make_table_healthy_band_stats Pprime ghost_ok grad_ok
    = Ok (BandStats (Z.of_nat (length Pprime))
            (Py.sum_int (map (fun _ => 1%Z)
               (filter (fun s => s) (stable_mask ghost_ok grad_ok))))
            frac).
Proof.
  unfold make_table_healthy_band_stats, Py.int_truediv.
  destruct (Z.of_nat (length Pprime) >? 0)%Z eqn:Hpos.
  - assert (Hnz : (Z.of_nat (length Pprime) =? 0)%Z = false)
      by (apply Z.eqb_neq; apply Z.gtb_lt in Hpos; lia).
    rewrite Hnz. cbn [bind]. eexists. reflexivity.
  - cbn [bind]. eexists. reflexivity.
Qed.

(** [make_table_healthy_band_stats] never raises: the fraction is only
    computed for a non-empty table and is NaN for an empty one.  The count
    of stable points lies between 0 and the length of the shorter flag
    column, hence below [total] when the columns are as long as the table. *)
Theorem healthy_band_stats_total
    (Pprime : list float) (ghost_ok grad_ok : list Z) :
  exists s,
    make_table_healthy_band_stats Pprime ghost_ok grad_ok = Ok s
    /\ hb_total s = Z.of_nat (length Pprime)
    /\ (0 <= hb_n_stable s
        <= Z.of_nat (Nat.min (length ghost_ok) (length grad_ok)))%Z
    /\ (Pprime = [] -> hb_frac_stable s = nan)
    /\ (Pprime <> [] ->
        hb_frac_stable s
        = Py.float_of_int (hb_n_stable s) / Py.float_of_int (hb_total s))
    /\ (length ghost_ok = length Pprime -> length grad_ok = length Pprime ->
        (hb_n_stable s <= hb_total s)%Z).
Proof.
  unfold make_table_healthy_band_stats.
  pose proof (stable_count_bounds (stable_mask ghost_ok grad_ok)) as Hn.
  rewrite stable_mask_length in Hn.
  destruct Pprime as [ | p Pprime].
  - cbn [length Z.of_nat Z.gtb Z.compare bind]. eexists. split; [ reflexivity | ].
    cbn [hb_total hb_n_stable hb_frac_stable].
    split; [ reflexivity | ]. split; [ exact Hn | ].
    split; [ reflexivity | ]. split; [ intros H; now elim H | ].
    intros Hg Hr. cbn [length] in *. lia.
  - assert (Hpos : (Z.of_nat (length (p :: Pprime)) >? 0)%Z = true)
      by (apply Z.gtb_lt; cbn [length]; lia).
    rewrite Hpos. unfold Py.int_truediv.
    assert (Hnz : (Z.of_nat (length (p :: Pprime)) =? 0)%Z = false)
      by (apply Z.eqb_neq; cbn [length]; lia).
    rewrite Hnz. cbn [bind]. eexists. split; [ reflexivity | ].
    cbn [hb_total hb_n_stable hb_frac_stable].
    split; [ reflexivity | ]. split; [ exact Hn | ].
    split; [ discriminate | ]. split; [ reflexivity | ].
    intros Hg Hr. lia.
Qed.

Lemma healthy_band_stats_total_witness :
  exists s,
    make_table_healthy_band_stats [] [] [] = Ok s /\ hb_frac_stable s = nan.
Proof.
  destruct (healthy_band_stats_total [] [] []) as [s [E [_ [_ [Hnan _] ] ] ] ].
  exists s. split; [ exact E | ]. apply Hnan. reflexivity.
Defined.

End ReportMore.

(** * The report generator on the scanner's rows, and the extrema *)

Section ReportOnScan.

Import make_all_figures_and_tables.
Local Open Scope float_scope.

Lemma stable_mask_map {R : Type} (f g : R -> Z) (l : list R) :
  stable_mask (map f l) (map g l)
  = map (fun r => (f r =? 1)%Z && (g r =? 1)%Z) l.
Proof.
  unfold stable_mask. induction l as [ | r l IH]; cbn [map combine].
  - reflexivity.
  - now rewrite IH.
Qed.

Lemma filter_map_length {R : Type} (f : R -> bool) (l : list R) :
  length (filter (fun s : bool => s) (map f l)) = length (filter f l).
Proof.
  induction l as [ | r l IH]; cbn [map filter].
  - reflexivity.
  - destruct (f r); cbn [length]; now rewrite IH.
Qed.

(** Across the two scripts: on the flag columns of a finished scan the
    report's stable mask marks exactly the rows with [Zt > 0] and [Zs > 0],
    and its table counts those rows against the number of rows written. *)
Theorem report_counts_healthy_rows
    (fuel : nat) (rws : list scan_healthy_band.grid_row) :
  scan_healthy_band.scan fuel = Some (Ok rws) ->
  stable_mask (map scan_healthy_band.ghost_ok rws)
              (map scan_healthy_band.grad_ok rws)
  = map (fun r => Py.gt (scan_healthy_band.Zt r) 0.0
                  && Py.gt (scan_healthy_band.Zs r) 0.0) rws
  /\ exists s,
       make_table_healthy_band_stats
         (map scan_healthy_band.Pprime rws)
         (map scan_healthy_band.ghost_ok rws)
         (map scan_healthy_band.grad_ok rws) = Ok s
       /\ hb_total s = Z.of_nat (length rws)
       /\ hb_n_stable s
          = Z.of_nat (length (filter
              (fun r => Py.gt (scan_healthy_band.Zt r) 0.0
                        && Py.gt (scan_healthy_band.Zs r) 0.0) rws)).
Proof.
  intros Hscan.
  assert (Hmask :
    stable_mask (map scan_healthy_band.ghost_ok rws)
                (map scan_healthy_band.grad_ok rws)
    = map (fun r => Py.gt (scan_healthy_band.Zt r) 0.0
                    && Py.gt (scan_healthy_band.Zs r) 0.0) rws).
  { rewrite stable_mask_map. apply map_ext_in. intros r Hin.
    destruct (scan_row_shape fuel rws r Hscan Hin) as [p [p2 ->] ].
    unfold scan_healthy_band.grid_row_of.
    cbn [scan_healthy_band.ghost_ok scan_healthy_band.grad_ok
         scan_healthy_band.Zt scan_healthy_band.Zs].
    now destruct (Py.gt (scan_healthy_band.Zt_of p p2) 0.0), (Py.gt p 0.0). }
  split; [ exact Hmask | ].
  destruct (healthy_band_stats_shape
              (map scan_healthy_band.Pprime rws)
              (map scan_healthy_band.ghost_ok rws)
              (map scan_healthy_band.grad_ok rws)) as [frac E].
  rewrite E. eexists. split; [ reflexivity | ].
  cbn [hb_total hb_n_stable]. rewrite length_map.
  split; [ reflexivity | ].
  rewrite Hmask, sum_ones_length, filter_map_length. reflexivity.
Qed.

Lemma report_counts_healthy_rows_witness :
  exists s,
    make_table_healthy_band_stats
      (map scan_healthy_band.Pprime
         (scan_healthy_band.grid scan_healthy_band.Pprime_axis
                                 scan_healthy_band.P2prime_axis))
      (map scan_healthy_band.ghost_ok
         (scan_healthy_band.grid scan_healthy_band.Pprime_axis
                                 scan_healthy_band.P2prime_axis))
      (map scan_healthy_band.grad_ok
         (scan_healthy_band.grid scan_healthy_band.Pprime_axis
                                 scan_healthy_band.P2prime_axis)) = Ok s
    /\ hb_total s = 1681%Z.
Proof.
  destruct (report_counts_healthy_rows 42 _ (scan_enough_fuel 0))
    as [_ [s [E [Htot _] ] ] ].
  exists s. split; [ exact E | ]. rewrite Htot. vm_compute. reflexivity.
Defined.

(** [min] and [max] as Python computes them. *)
Lemma py_min_in (x : float) (xs : list float) : In (Py.min x xs) (x :: xs).
Proof.
  unfold Py.min. revert x. induction xs as [ | v xs IH]; intros x; cbn [fold_left].
  - now left.
  - destruct (IH (if v <? x then v else x)) as [H | H].
    + rewrite <- H. destruct (v <? x); [ right; now left | now left ].
    + right. now right.
Qed.

Lemma py_max_in (x : float) (xs : list float) : In (Py.max x xs) (x :: xs).
Proof.
  unfold Py.max. revert x. induction xs as [ | v xs IH]; intros x; cbn [fold_left].
  - now left.
  - destruct (IH (if Py.gt v x then v else x)) as [H | H].
    + rewrite <- H. destruct (Py.gt v x); [ right; now left | now left ].
    + right. now right.
Qed.

Lemma py_min_nan (x : float) (xs : list float) :
  is_nan x = true -> Py.min x xs = x.
Proof.
  intros H. unfold Py.min. induction xs as [ | v xs IH]; cbn [fold_left].
  - reflexivity.
  - now rewrite (ltb_nan_r v x H).
Qed.

Lemma py_max_nan (x : float) (xs : list float) :
  is_nan x = true -> Py.max x xs = x.
Proof.
  intros H. unfold Py.max, Py.gt. induction xs as [ | v xs IH]; cbn [fold_left].
  - reflexivity.
  - now rewrite (ltb_nan_l x v H).
Qed.

Lemma py_min_lower (x : float) (xs : list float) :
  Forall (fun w => is_nan w = false) (x :: xs) ->
  Forall (fun w => (Py.min x xs <=? w) = true) (x :: xs).
Proof.
  unfold Py.min. revert x. induction xs as [ | v xs IH]; intros x H;
    cbn [fold_left].
  - constructor; [ | constructor ]. apply leb_refl. now inversion H.
  - inversion H as [ | ? ? Hx Hrest]; subst.
    inversion Hrest as [ | ? ? Hv Hxs]; subst.
    set (m := if v <? x then v else x).
    assert (Hm : is_nan m = false) by (unfold m; now destruct (v <? x)).
    assert (Hmx : (m <=? x) = true).
    { unfold m. destruct (v <? x) eqn:L; [ now apply ltb_leb | now apply leb_refl ]. }
    assert (Hmv : (m <=? v) = true).
    { unfold m. destruct (v <? x) eqn:L;
        [ now apply leb_refl | now apply not_ltb_leb ]. }
    specialize (IH m (Forall_cons _ Hm Hxs)).
    inversion IH as [ | ? ? Hmin Hothers]; subst.
    constructor; [ exact (leb_trans _ _ _ Hmin Hmx) | ].
    constructor; [ exact (leb_trans _ _ _ Hmin Hmv) | exact Hothers ].
Qed.

Lemma py_max_upper (x : float) (xs : list float) :
  Forall (fun w => is_nan w = false) (x :: xs) ->
  Forall (fun w => (w <=? Py.max x xs) = true) (x :: xs).
Proof.
  unfold Py.max, Py.gt. revert x. induction xs as [ | v xs IH]; intros x H;
    cbn [fold_left].
  - constructor; [ | constructor ]. apply leb_refl. now inversion H.
  - inversion H as [ | ? ? Hx Hrest]; subst.
    inversion Hrest as [ | ? ? Hv Hxs]; subst.
    set (m := if x <? v then v else x).
    assert (Hm : is_nan m = false) by (unfold m; now destruct (x <? v)).
    assert (Hxm : (x <=? m) = true).
    { unfold m. destruct (x <? v) eqn:L; [ now apply ltb_leb | now apply leb_refl ]. }
    assert (Hvm : (v <=? m) = true).
    { unfold m. destruct (x <? v) eqn:L;
        [ now apply leb_refl | now apply not_ltb_leb ]. }
    specialize (IH m (Forall_cons _ Hm Hxs)).
    inversion IH as [ | ? ? Hmax Hothers]; subst.
    constructor; [ exact (leb_trans _ _ _ Hxm Hmax) | ].
    constructor; [ exact (leb_trans _ _ _ Hvm Hmax) | exact Hothers ].
Qed.

(** The extrema of the F2 table.  Both are NaN for an empty list and are
    values of the list otherwise.  When no value is a NaN they bound every
    value of the list.  A NaN in first place is returned as both extrema
    whatever follows it. *)
Theorem F2_extrema (F2 : list float) :
  (F2 = [] ->
     F2_min (make_table_spin2_F2_stats F2) = nan
     /\ F2_max (make_table_spin2_F2_stats F2) = nan)
  /\ (F2 <> [] ->
        In (F2_min (make_table_spin2_F2_stats F2)) F2
        /\ In (F2_max (make_table_spin2_F2_stats F2)) F2)
  /\ (Forall (fun w => is_nan w = false) F2 ->
        Forall (fun w =>
          (F2_min (make_table_spin2_F2_stats F2) <=? w) = true
          /\ (w <=? F2_max (make_table_spin2_F2_stats F2)) = true) F2)
  /\ (forall v vs, F2 = v :: vs -> is_nan v = true ->
        F2_min (make_table_spin2_F2_stats F2) = v
        /\ F2_max (make_table_spin2_F2_stats F2) = v).
Proof.
  destruct F2 as [ | x xs]; cbn [make_table_spin2_F2_stats F2_min F2_max].
  - split; [ now split | ]. split; [ intros H; now elim H | ].
    split; [ constructor | ]. discriminate.
  - split; [ discriminate | ].
    split; [ intros _; split; [ apply py_min_in | apply py_max_in ] | ].
    split.
    + intros H. pose proof (py_min_lower x xs H) as Hlo.
      pose proof (py_max_upper x xs H) as Hhi.
      rewrite Forall_forall in *. intros w Hw. split; auto.
    + intros v vs [= <- <-] Hnan.
      split; [ now apply py_min_nan | now apply py_max_nan ].
Qed.

Lemma F2_extrema_witness :
  Forall (fun w =>
    (F2_min (make_table_spin2_F2_stats [1.5; -3.0; 0.25]) <=? w) = true
    /\ (w <=? F2_max (make_table_spin2_F2_stats [1.5; -3.0; 0.25])) = true)
    [1.5; -3.0; 0.25]
  /\ F2_min (make_table_spin2_F2_stats [nan; 1.0; -3.0]) = nan.
Proof.
  destruct (F2_extrema [1.5; -3.0; 0.25]) as [_ [_ [Hbound _] ] ].
  destruct (F2_extrema [nan; 1.0; -3.0]) as [_ [_ [_ Hnan] ] ].
  split.
  - apply Hbound. repeat constructor.
  - apply (Hnan nan [1.0; -3.0]); reflexivity.
Defined.

End ReportOnScan.

(** * The report generator on the scanner's file *)

Section ReportFile.

Import make_all_figures_and_tables.
Import String.
Local Open Scope float_scope.

(** C8, as the code has it. The two [X0] are the same float and the report's
    formula is the scanner's, as functions of [(Pprime, P2prime)].  The
    report evaluates it at the columns it loads from the file, where both
    arguments stand rounded to three decimals: for every record its [y] is
    the scanner's formula at the two values read back, and it is the
    scanner's [Zt] for the records whose [Pprime] and [P2prime] the file
    holds exactly. *)
Theorem C8_report_y_is_Zt_formula_at_values_read :
  X0 = scan_healthy_band.X0
  /\ (forall p p2, y_of p p2 = scan_healthy_band.Zt_of p p2)
  /\ (forall rws,
        y_vals_of_file rws
        = map (fun r =>
                 scan_healthy_band.Zt_of
                   (Py.float_of_numeral3
                      (Py.format_3f (scan_healthy_band.Pprime r)))
                   (Py.float_of_numeral3
                      (Py.format_3f (scan_healthy_band.P2prime r)))) rws)
  /\ forall fuel rws,
       scan_healthy_band.scan fuel = Some (Ok rws) ->
       forall i r,
         nth_error rws i = Some r ->
         Py.float_of_numeral3 (Py.format_3f (scan_healthy_band.Pprime r))
         = scan_healthy_band.Pprime r ->
         Py.float_of_numeral3 (Py.format_3f (scan_healthy_band.P2prime r))
         = scan_healthy_band.P2prime r ->
         nth_error (y_vals_of_file rws) i = Some (scan_healthy_band.Zt r).
Proof.
  assert (Hfile : forall rws,
    y_vals_of_file rws
    = map (fun r =>
             scan_healthy_band.Zt_of
               (Py.float_of_numeral3
                  (Py.format_3f (scan_healthy_band.Pprime r)))
               (Py.float_of_numeral3
                  (Py.format_3f (scan_healthy_band.P2prime r)))) rws).
  { intros rws. unfold y_vals_of_file, load_healthy_band.
    cbn [col_Pprime col_P2prime]. rewrite !map_map.
    unfold scan_healthy_band.write_row.
    cbn [scan_healthy_band.cell_Pprime scan_healthy_band.cell_P2prime].
    now rewrite y_vals_map. }
  split; [ reflexivity | ]. split; [ reflexivity | ].
  split; [ exact Hfile | ].
  intros fuel rws Hscan i r Hi Hp Hp2.
  rewrite Hfile. rewrite (map_nth_error _ _ _ Hi). f_equal.
  rewrite Hp, Hp2.
  destruct (scan_row_shape fuel rws r Hscan (nth_error_In _ _ Hi))
    as [p [p2 ->] ].
  reflexivity.
Qed.

Lemma C8_report_y_is_Zt_formula_at_values_read_witness :
  nth_error
    (y_vals_of_file
       (scan_healthy_band.grid scan_healthy_band.Pprime_axis
                               scan_healthy_band.P2prime_axis)) 0
  = Some (scan_healthy_band.Zt (scan_healthy_band.grid_row_of (-2.0) (-2.0))).
Proof.
  apply (proj2 (proj2 (proj2 C8_report_y_is_Zt_formula_at_values_read))
           42%nat _ (scan_enough_fuel 0) 0%nat
           (scan_healthy_band.grid_row_of (-2.0) (-2.0)));
    vm_compute; reflexivity.
Defined.

(** C8, as stated, fails on the scanner's own output.  Record 30 of the scan
    has [Pprime = -2.0] and [P2prime = 1.0000000000000007], so the scanner's
    [Zt] is [1.33e-15]; the file holds [-2.000] and [1.000], from which the
    report computes [y = 0.0].  The two differ in 1659 of the 1681 records. *)
Lemma C8_report_y_differs_from_Zt_counterexample :
  scan_healthy_band.scan 42
  = Some (Ok (scan_healthy_band.grid scan_healthy_band.Pprime_axis
                                     scan_healthy_band.P2prime_axis))
  /\ (exists r,
        nth_error (scan_healthy_band.grid scan_healthy_band.Pprime_axis
                                          scan_healthy_band.P2prime_axis) 30
        = Some r
        /\ scan_healthy_band.Pprime r = -2.0
        /\ scan_healthy_band.P2prime r = 0x1.0000000000003p+0
        /\ scan_healthy_band.Zt r = 0x1.8p-50
        /\ Py.text_of_numeral3 (Py.format_3f (scan_healthy_band.Pprime r))
           = "-2.000"%string
        /\ Py.text_of_numeral3 (Py.format_3f (scan_healthy_band.P2prime r))
           = "1.000"%string
        /\ nth_error
             (y_vals_of_file
                (scan_healthy_band.grid scan_healthy_band.Pprime_axis
                                        scan_healthy_band.P2prime_axis)) 30
           = Some 0.0
        /\ (0.0 =? scan_healthy_band.Zt r) = false)
  /\ List.length
       (filter (fun yr => negb (fst yr =? scan_healthy_band.Zt (snd yr)))
          (combine
             (y_vals_of_file
                (scan_healthy_band.grid scan_healthy_band.Pprime_axis
                                        scan_healthy_band.P2prime_axis))
             (scan_healthy_band.grid scan_healthy_band.Pprime_axis
                                     scan_healthy_band.P2prime_axis)))
     = 1659%nat.
Proof.
  split; [ exact (scan_enough_fuel 0) | ].
  split.
  - eexists. split; [ vm_compute; reflexivity | ].
    repeat split; vm_compute; reflexivity.
  - vm_compute. reflexivity.
Qed.

End ReportFile.
